(** * ga_ml: the fitness wrapper and the weight-vector bookkeeping of
    [assignment_2/nn_hiive.ipynb]

    The notebook trains a 4 -> 10 -> 10 -> 3 network on Iris with three
    randomized optimizers.  Its own code is the [CustomFitness] adapter
    class, [build_model], [fitness_function], the [total_weights]
    expression and the test-accuracy loop; everything numeric is done by
    NumPy, Keras and mlrose.  The development embeds the notebook's own
    code; the libraries' numeric kernels (initializers, losses, metrics,
    optimizers) are parameters of it. *)

From Stdlib Require Import ZArith QArith List String Lia.
From stdpp Require Import base option list gmap strings.
Import ListNotations.
Local Open Scope string_scope.

(** ** Python outcomes: a state monad in which a raise keeps the state *)

Module Py.

Inductive exn : Type :=
| Exception (msg : string)
| AttributeError (attr : string)
| KeyError (key : string)
| IndexError (msg : string)
| TypeError (msg : string)
| ValueError (msg : string).

Inductive outcome (A : Type) : Type :=
| Ok (a : A)
| Raise (e : exn).
Arguments Ok {A} a.
Arguments Raise {A} e.

(** A computation over a store [S]: effects done before a raise stay. *)
Definition M (S A : Type) : Type := S -> outcome A * S.

Definition ret {S A} (a : A) : M S A := fun s => (Ok a, s).
Definition raise {S A} (e : exn) : M S A := fun s => (Raise e, s).
Definition bind {S A B} (c : M S A) (k : A -> M S B) : M S B :=
  fun s => match c s with
           | (Ok a, s') => k a s'
           | (Raise e, s') => (Raise e, s')
           end.
Definition modify {S} (f : S -> S) : M S unit := fun s => (Ok tt, f s).
(** A computation that cannot touch the store. *)
Definition lift {S A} (o : outcome A) : M S A := fun s => (o, s).

Definition is_raise {A} (o : outcome A) : Prop :=
  match o with Raise _ => True | Ok _ => False end.

(** Code that touches no store runs in [outcome] itself. *)
Definition obind {A B} (k : A -> outcome B) (o : outcome A) : outcome B :=
  match o with Ok a => k a | Raise e => Raise e end.

#[export] Instance outcome_ret : MRet outcome := @Ok.
#[export] Instance outcome_bind : MBind outcome := @obind.
#[export] Instance M_ret {S} : MRet (M S) := @ret S.
#[export] Instance M_bind {S} : MBind (M S) := fun A B k c => bind c k.

End Py.
Import Py.

(** ** The [CustomFitness] class *)

Module CustomFitness.

(** References to objects on the Python heap. *)
Definition loc := nat.

Section Class.
(** [State]: state vectors; [Arg]: keyword-argument values; [Val]:
    fitness values; [Fn]: callables (a callable is named here and
    given its meaning by [call], because a Python callable may reach
    and change the very heap the wrapper lives in); [W]: the rest of
    the interpreter state. *)
Context {State Arg Val Fn W : Type}.

(** The instance dictionary of a wrapper: an attribute that has not
    been assigned yet is [None]. *)
Record obj : Type := Obj {
  fitness_fn : option Fn;
  problem_type : option string;
  kwargs : option (gmap string Arg)
}.

Record world : Type := World {
  heap : gmap loc obj;
  ext : W
}.

Variable call : Fn -> State -> gmap string Arg -> M world Val.

Definition empty_obj : obj := Obj None None None.

(** [object.__new__]: a fresh object with an empty dictionary. *)
Definition new : M world loc := fun w =>
  let l := fresh (dom (heap w)) in
  (Ok l, World (<[l := empty_obj]> (heap w)) (ext w)).

Definition setattr (self : loc) (f : obj -> obj) : M world unit :=
  modify (fun w => World (alter f self (heap w)) (ext w)).

Definition getattr {A} (self : loc) (name : string)
    (proj : obj -> option A) : M world A := fun w =>
  match heap w !! self ≫= proj with
  | Some a => (Ok a, w)
  | None => (Raise (AttributeError name), w)
  end.

Definition supported : list string :=
  ["discrete"; "continuous"; "tsp"; "either"].

(** [x not in xs] on a Python list of strings. *)
Definition not_in (x : string) (xs : list string) : bool :=
  negb (existsb (String.eqb x) xs).

Definition __init__ (self : loc) (fitness_fn' : Fn)
    (problem_type' : string) (kwargs' : gmap string Arg) : M world unit :=
  if not_in problem_type' supported then
    raise (Exception "problem_type does not exist.")
  else
    (setattr self (fun o => Obj (Some fitness_fn') (problem_type o) (kwargs o));;
     setattr self (fun o => Obj (fitness_fn o) (Some problem_type') (kwargs o));;
     setattr self (fun o => Obj (fitness_fn o) (problem_type o) (Some kwargs'))).

(** The default of the [problem_type] parameter in the [def] line. *)
Definition default_problem_type : string := "continuous".
(** The default the class docstring announces. *)
Definition docstring_default_problem_type : string := "either".

(** The call [CustomFitness(fitness_fn, [problem_type,] **kwargs)]:
    [None] for [problem_type] is the call that leaves it out. *)
Definition CustomFitness (fitness_fn' : Fn)
    (problem_type' : option string) (kwargs' : gmap string Arg) : M world loc :=
  self ← new;
  __init__ self fitness_fn' (default default_problem_type problem_type') kwargs';;
  mret self.

Definition evaluate (self : loc) (state : State) : M world Val :=
  fn ← getattr self "fitness_fn" fitness_fn;
  kw ← getattr self "kwargs" kwargs;
  fitness ← call fn state kw;
  mret fitness.

Definition get_prob_type (self : loc) : M world string :=
  getattr self "problem_type" problem_type.

(** *** Vocabulary of the statements *)

(** The labels the constructor accepts, spelled out. *)
Definition is_supported (p : string) : Prop :=
  p = "discrete" \/ p = "continuous" \/ p = "tsp" \/ p = "either".

(** The wrapper at [l] has been fully initialised with these fields. *)
Definition wrapper_at (w : world) (l : loc) (f : Fn) (p : string)
    (kw : gmap string Arg) : Prop :=
  heap w !! l = Some (Obj (Some f) (Some p) (Some kw)).

(** An inner function that is pure: no effect, and a result that does
    not depend on the interpreter state. *)
Definition pure_fn (f : Fn) : Prop :=
  forall state kw (w w' : world),
    (call f state kw w).2 = w /\ (call f state kw w).1 = (call f state kw w').1.

End Class.
End CustomFitness.

(** ** NumPy: 64-bit sizes, slices and reshape *)

Module Np.

(** [np.int64] arithmetic wraps around. *)
Definition wrap64 (z : Z) : Z := ((z + 2 ^ 63) `mod` 2 ^ 64 - 2 ^ 63)%Z.
Definition add64 (a b : Z) : Z := wrap64 (a + b).
Definition size_of (shape : list Z) : Z := fold_right Z.mul 1%Z shape.
(** [np.prod] of a shape tuple: the product, as an [np.int64]. *)
Definition prod (shape : list Z) : Z := wrap64 (size_of shape).

Section Array.
Context {A : Type}.

(** An array is its shape and its entries in row-major order. *)
Record ndarray : Type := NdArray { shape : list Z; data : list A }.

(** How Python clips one bound of a slice of a sequence of [len]
    entries: a negative bound counts from the end. *)
Definition adjust (len i : Z) : Z :=
  if (i <? 0)%Z then Z.max (i + len) 0 else Z.min i len.

(** [a[start:stop]] on a one-dimensional array. *)
Definition slice (a : list A) (start stop : Z) : list A :=
  let len := Z.of_nat (length a) in
  let lo := adjust len start in
  let hi := adjust len stop in
  take (Z.to_nat (hi - lo)) (drop (Z.to_nat lo) a).

(** [a.reshape(shape)] for the shape of an existing array (no
    negative dimension): the sizes must agree. *)
Definition reshape (a : list A) (shp : list Z) : outcome ndarray :=
  if forallb (Z.leb 0) shp && (Z.of_nat (length a) =? size_of shp)%Z
  then Ok (NdArray shp a)
  else Raise (ValueError "cannot reshape array").

End Array.
Arguments ndarray A : clear implicits.

End Np.

(** ** Keras: dense layers and sequential models *)

Module Keras.
Import Np.

Section Layers.
Context {Scalar : Type}.

(** A built [Dense] layer.  [get_weights()] is the list of [kernel]
    and [bias], so [get_weights()[0]] and [get_weights()[1]] are these
    two fields. *)
Record layer : Type := Layer {
  units : Z;
  activation : string;
  kernel : ndarray Scalar;
  bias : ndarray Scalar
}.

(** [layer.set_weights([w; b])]: Keras refuses a list of the wrong
    length or an array of the wrong shape. *)
Definition set_weights (l : layer) (ws : list (ndarray Scalar)) : outcome layer :=
  match ws with
  | [w; b] =>
      if bool_decide (shape w = shape (kernel l))
         && bool_decide (shape b = shape (bias l))
      then Ok (Layer (units l) (activation l) w b)
      else Raise (ValueError "layer weight shape mismatch")
  | _ => Raise (ValueError "wrong number of weight arrays")
  end.

Record model : Type := Model {
  layers : list layer;
  optimizer : option string;
  loss : option string;
  metrics : list string
}.

(** The arguments of [Dense(units, input_dim=..., activation=...)]. *)
Record dense : Type := Dense {
  d_units : Z;
  d_input_dim : option Z;
  d_activation : string
}.

Definition Sequential : model := Model [] None None [].

Definition compile (m : model) (opt l : string) (ms : list string) : model :=
  Model (layers m) (Some opt) (Some l) ms.

End Layers.
Arguments layer Scalar : clear implicits.
Arguments model Scalar : clear implicits.

(** What the notebook needs of the numeric back end.  The values of
    the scalars never matter to the notebook's own code: it only moves
    them around. *)
Class Backend (Scalar Rng : Type) : Type := {
  (** the bias initializer's value *)
  zero : Scalar;
  (** the kernel initializer: [n] fresh entries and the next generator *)
  glorot_uniform : Z -> Rng -> list Scalar * Rng;
  (** the compiled loss, by name, of a network on a data set *)
  loss_value : string -> list (layer Scalar) -> ndarray Scalar -> ndarray Scalar -> Scalar;
  (** a compiled metric, by name, of a network on a data set *)
  metric_value : string -> list (layer Scalar) -> ndarray Scalar -> ndarray Scalar -> Scalar;
  (** [f"{x:.2f}"] *)
  format_2f : Scalar -> string
}.

Section Models.
Context {Scalar Rng : Type} `{!Backend Scalar Rng}.

(** [model.add(Dense(...))]: the layer is built at once, its input
    width being [input_dim] for the first layer and the width of the
    layer before it otherwise. *)
Definition add (m : model Scalar) (d : dense) (g : Rng)
    : outcome (model Scalar) * Rng :=
  let input :=
    match last (layers m) with
    | Some prev => Some (units prev)
    | None => d_input_dim d
    end in
  match input with
  | None => (Raise (ValueError "the first layer needs an input shape"), g)
  | Some n =>
      let '(k, g') := glorot_uniform (n * d_units d) g in
      (Ok (Model (layers m ++
                  [Layer (d_units d) (d_activation d)
                     (NdArray [n; d_units d] k)
                     (NdArray [d_units d] (replicate (Z.to_nat (d_units d)) zero))])
             (optimizer m) (loss m) (metrics m)), g')
  end.

(** [model.evaluate(x, y, verbose=0)]: the loss first, then the
    metrics in the order they were compiled. *)
Definition evaluate (m : model Scalar) (x y : ndarray Scalar)
    : outcome (list Scalar) :=
  match loss m with
  | None => Raise (ValueError "compile the model before evaluating it")
  | Some l =>
      Ok (loss_value l (layers m) x y
          :: map (fun mu => metric_value mu (layers m) x y) (metrics m))
  end.

End Models.

End Keras.

(** ** The notebook's cells *)

Module Notebook.
Import Np Keras.

(** The callables the notebook defines with [def]. *)
Inductive callable : Type := fitness_function_def.

(** What a cell of [results] holds. *)
Inductive entry (Scalar : Type) : Type :=
| EState (state : list Scalar)
| EFitness (fitness : Scalar)
| ECurve (curve : list Scalar).
Arguments EState {Scalar} state.
Arguments EFitness {Scalar} fitness.
Arguments ECurve {Scalar} curve.

(** The interpreter state besides the heap of wrappers: the random
    generator behind the initializers, and what was printed. *)
Record ext (Rng : Type) : Type := Ext { rng : Rng; stdout : list string }.
Arguments Ext {Rng} rng stdout.
Arguments rng {Rng} e.
Arguments stdout {Rng} e.

(** [mlrose.ContinuousOpt(length=..., fitness_fn=..., maximize=...)]. *)
Record ContinuousOpt : Type := {
  length : Z;
  fitness_fn : CustomFitness.loc;
  maximize : bool
}.

Section Cells.
Context {Scalar Rng : Type} `{!Backend Scalar Rng}.

Abbreviation world := (@CustomFitness.world Scalar callable (ext Rng)).
Abbreviation results_t := (gmap string (gmap string (entry Scalar))).

(** The data of cell 3: the split, standardized Iris arrays. *)
Variables X_train X_test y_train y_test : ndarray Scalar.

(** mlrose's optimizers; each returns the best state, its fitness
    and the fitness curve. *)
Variable random_hill_climb simulated_annealing :
  ContinuousOpt -> forall (max_attempts max_iters : Z) (curve : bool)
    (random_state : Z), M world (list Scalar * Scalar * list Scalar).
Variable genetic_alg :
  ContinuousOpt -> forall (max_attempts max_iters : Z) (curve : bool)
    (random_state pop_size : Z) (mutation_prob : Q),
    M world (list Scalar * Scalar * list Scalar).

(** [t[i]] on a shape tuple. *)
Definition item (t : list Z) (i : nat) : outcome Z :=
  match t !! i with
  | Some d => Ok d
  | None => Raise (IndexError "tuple index out of range")
  end.

Definition add (m : model Scalar) (d : dense) : M world (model Scalar) :=
  fun w =>
    let '(r, g) := Keras.add m d (rng (CustomFitness.ext w)) in
    (r, CustomFitness.World (CustomFitness.heap w)
          (Ext g (stdout (CustomFitness.ext w)))).

Definition print (line : string) : M world unit :=
  modify (fun w =>
    CustomFitness.World (CustomFitness.heap w)
      (Ext (rng (CustomFitness.ext w))
           (stdout (CustomFitness.ext w) ++ [line]))).

Definition build_model : M world (model Scalar) :=
  let model := Sequential in
  n_in ← lift (item (shape X_train) 1);
  model ← add model (Dense 10 (Some n_in) "relu");
  model ← add model (Dense 10 None "relu");
  n_out ← lift (item (shape y_train) 1);
  model ← add model (Dense n_out None "softmax");
  mret model.

(** The [for layer in model.layers] loop of [fitness_function],
    from [start] on; it yields the layers with their weights set. *)
Fixpoint fitness_function_loop (weights : list Scalar) (start : Z)
    (ls : list (layer Scalar)) : outcome (list (layer Scalar)) :=
  match ls with
  | [] => Ok []
  | layer :: rest =>
      let weights_shape := shape (kernel layer) in
      let biases_shape := shape (bias layer) in
      layer_weights ←
        reshape (slice weights start (add64 start (prod weights_shape)))
          weights_shape;
      let start := add64 start (prod weights_shape) in
      layer_biases ←
        reshape (slice weights start (add64 start (prod biases_shape)))
          biases_shape;
      let start := add64 start (prod biases_shape) in
      layer ← set_weights layer [layer_weights; layer_biases];
      rest ← fitness_function_loop weights start rest;
      Ok (layer :: rest)
  end.

(** [loss, accuracy = model.evaluate(...)]. *)
Definition unpack2 (r : list Scalar) : outcome (Scalar * Scalar) :=
  match r with
  | [loss; accuracy] => Ok (loss, accuracy)
  | _ => Raise (ValueError "wrong number of values to unpack")
  end.

Definition fitness_function (weights : list Scalar) : M world Scalar :=
  model ← build_model;
  ls ← lift (fitness_function_loop weights 0 (layers model));
  let model :=
    compile (Model ls (optimizer model) (loss model) (metrics model))
      "Adam" "categorical_crossentropy" ["accuracy"] in
  '(loss, accuracy) ←
    lift (Keras.evaluate model X_train y_train ≫= unpack2);
  mret loss.

(** What calling a notebook callable with [(state, **kwargs)] does. *)
Definition call (fn : callable) (state : list Scalar)
    (kw : gmap string Scalar) : M world Scalar :=
  match fn with
  | fitness_function_def =>
      match map_to_list kw with
      | [] => fitness_function state
      | _ => raise (TypeError "unexpected keyword argument")
      end
  end.

(** [sum(np.prod(kernel shape) + np.prod(bias shape) for layer in ...)]. *)
Definition sum_sizes (ls : list (layer Scalar)) : Z :=
  fold_left
    (fun acc layer =>
       add64 acc (add64 (prod (shape (kernel layer)))
                        (prod (shape (bias layer)))))
    ls 0%Z.

(** Cell 5: the problem dimensions. *)
Definition total_weights : M world Z :=
  model ← build_model;
  let model :=
    compile model "Adam" "categorical_crossentropy" ["accuracy"] in
  mret (sum_sizes (layers model)).

(** Cell 6: the name [fitness_function] is rebound to the wrapper. *)
Definition problem (total_weights : Z) : M world ContinuousOpt :=
  fitness_function ←
    CustomFitness.CustomFitness fitness_function_def None ∅;
  mret {| length := total_weights;
          fitness_fn := fitness_function;
          maximize := false |}.

(** [d[k1][k2] = v] and [d[k1][k2]] on a dictionary of dictionaries. *)
Definition setitem2 (d : results_t) (k1 k2 : string) (v : entry Scalar)
    : outcome results_t :=
  match d !! k1 with
  | Some inner => Ok (<[k1 := <[k2 := v]> inner]> d)
  | None => Raise (KeyError k1)
  end.

Definition getitem2 (d : results_t) (k1 k2 : string)
    : outcome (entry Scalar) :=
  match d !! k1 with
  | Some inner =>
      match inner !! k2 with
      | Some v => Ok v
      | None => Raise (KeyError k2)
      end
  | None => Raise (KeyError k1)
  end.

(** [e[a:b]] needs an array. *)
Definition as_array (e : entry Scalar) : outcome (list Scalar) :=
  match e with
  | EState s | ECurve s => Ok s
  | EFitness _ => Raise (IndexError "invalid index to scalar variable")
  end.

(** Cell 7, first lines: the result containers.  ([training_times]
    holds wall-clock differences and is left out.) *)
Definition containers : results_t * results_t :=
  (<["RHC" := ∅]> (<["SA" := ∅]> (<["GA" := ∅]> ∅)),
   <["RHC" := ∅]> (<["SA" := ∅]> (<["GA" := ∅]> ∅))).

Definition store (algo : string)
    (run : M world (list Scalar * Scalar * list Scalar))
    (rh : results_t * results_t) : M world (results_t * results_t) :=
  '(best_state, best_fitness, fitness_curve) ← run;
  results ← lift (setitem2 rh.1 algo "state" (EState best_state));
  results ← lift (setitem2 results algo "fitness" (EFitness best_fitness));
  histories ← lift (setitem2 rh.2 algo "curve" (ECurve fitness_curve));
  mret (results, histories).

(** Cells 7, 9 and 10: the three optimizer runs. *)
Definition optimize (problem : ContinuousOpt)
    : M world (results_t * results_t) :=
  rh ← store "RHC" (random_hill_climb problem 100 1000 true 42) containers;
  rh ← store "SA" (simulated_annealing problem 100 1000 true 42) rh;
  store "GA" (genetic_alg problem 100 1000 true 42 300 (1 # 5)) rh.

(** The [for layer in model.layers] loop of the last cell. *)
Fixpoint test_accuracies_loop (results : results_t) (algo : string)
    (start : Z) (ls : list (layer Scalar)) : outcome (list (layer Scalar)) :=
  match ls with
  | [] => Ok []
  | layer :: rest =>
      let weights_shape := shape (kernel layer) in
      let biases_shape := shape (bias layer) in
      state ← getitem2 results algo "state" ≫= as_array;
      layer_weights ←
        reshape (slice state start (add64 start (prod weights_shape)))
          weights_shape;
      let start := add64 start (prod weights_shape) in
      state ← getitem2 results algo "state" ≫= as_array;
      layer_biases ←
        reshape (slice state start (add64 start (prod biases_shape)))
          biases_shape;
      let start := add64 start (prod biases_shape) in
      layer ← set_weights layer [layer_weights; layer_biases];
      rest ← test_accuracies_loop results algo start rest;
      Ok (layer :: rest)
  end.

(** The [for algo in ...] loop of the last cell. *)
Fixpoint test_accuracies_for (algos : list string) (results : results_t)
    (test_accuracies : gmap string Scalar) : M world (gmap string Scalar) :=
  match algos with
  | [] => mret test_accuracies
  | algo :: rest =>
      model ← build_model;
      ls ← lift (test_accuracies_loop results algo 0 (layers model));
      let model :=
        compile (Model ls (optimizer model) (loss model) (metrics model))
          "Adam" "categorical_crossentropy" ["accuracy"] in
      '(loss, accuracy) ←
        lift (Keras.evaluate model X_test y_test ≫= unpack2);
      let test_accuracies := <[algo := accuracy]> test_accuracies in
      print ("Test accuracy for " ++ algo ++ ": " ++ format_2f accuracy);;
      test_accuracies_for rest results test_accuracies
  end.

Definition test_accuracies (results : results_t)
    : M world (gmap string Scalar) :=
  test_accuracies_for ["RHC"; "SA"; "GA"] results ∅.

(** *** Vocabulary of the statements *)

(** What identifies a layer apart from the values of its parameters. *)
Definition signature (l : layer Scalar) : Z * string * list Z * list Z :=
  (units l, activation l, shape (kernel l), shape (bias l)).

(** The fixed network 4 -> 10 -> 10 -> 3. *)
Definition architecture : list (Z * string * list Z * list Z) :=
  [(10, "relu", [4; 10], [10]);
   (10, "relu", [10; 10], [10]);
   (3, "softmax", [10; 3], [3])]%Z.

(** The parameter count, in unbounded arithmetic: weight-matrix size
    plus bias-vector size, summed over the layers. *)
Definition parameters (l : layer Scalar) : Z :=
  (size_of (shape (kernel l)) + size_of (shape (bias l)))%Z.
Definition parameter_count (ls : list (layer Scalar)) : Z :=
  fold_right (fun l n => (parameters l + n)%Z) 0%Z ls.

(** The index ranges [(start, stop)] of the slices the reconstruction
    loop takes, in the order it takes them, with the loop's own
    arithmetic on [start]. *)
Fixpoint slices (start : Z) (ls : list (layer Scalar)) : list (Z * Z) :=
  match ls with
  | [] => []
  | layer :: rest =>
      let stop_w := add64 start (prod (shape (kernel layer))) in
      let stop_b := add64 stop_w (prod (shape (bias layer))) in
      (start, stop_w) :: (stop_w, stop_b) :: slices stop_b rest
  end.

(** Ranges that follow one another from [a] to [b] without gap or
    overlap. *)
Fixpoint consecutive (a : Z) (rs : list (Z * Z)) (b : Z) : Prop :=
  match rs with
  | [] => a = b
  | r :: rest => r.1 = a /\ (a <= r.2)%Z /\ consecutive r.2 rest b
  end.

(** All parameters of a network, layer by layer, weights before biases. *)
Definition flatten (net : list (layer Scalar)) : list Scalar :=
  flat_map (fun l => (data (kernel l) ++ data (bias l))%list) net.

(** The layers [ls] with their parameters read off a flat vector from
    position [start] on, in unbounded arithmetic. *)
Fixpoint install (weights : list Scalar) (start : nat)
    (ls : list (layer Scalar)) : list (layer Scalar) :=
  match ls with
  | [] => []
  | l :: rest =>
      let nk := Z.to_nat (size_of (shape (kernel l))) in
      let nb := Z.to_nat (size_of (shape (bias l))) in
      Layer (units l) (activation l)
        (NdArray (shape (kernel l)) (take nk (drop start weights)))
        (NdArray (shape (bias l)) (take nb (drop (start + nk) weights)))
      :: install weights (start + nk + nb) rest
  end.

(** The network 4 -> 10 -> 10 -> 3 whose parameters are the entries of
    a flat vector. *)
Definition network (s : list Scalar) : list (layer Scalar) :=
  [Layer 10 "relu" (NdArray [4; 10]%Z (take 40 s))
     (NdArray [10]%Z (take 10 (drop 40 s)));
   Layer 10 "relu" (NdArray [10; 10]%Z (take 100 (drop 50 s)))
     (NdArray [10]%Z (take 10 (drop 150 s)));
   Layer 3 "softmax" (NdArray [10; 3]%Z (take 30 (drop 160 s)))
     (NdArray [3]%Z (take 3 (drop 190 s)))].

(** The parameter count of the fixed architecture. *)
Definition architecture_parameters : Z :=
  fold_right (fun '(_, _, ws, bs) n => (size_of ws + size_of bs + n)%Z) 0%Z
    architecture.

(** No dimension is negative and no running total leaves [np.int64]. *)
Definition fits (start : Z) (ls : list (layer Scalar)) : Prop :=
  (0 <= start)%Z /\
  Forall (fun l => Forall (Z.le 0) (shape (kernel l)) /\
                   Forall (Z.le 0) (shape (bias l))) ls /\
  (start + parameter_count ls < 2 ^ 63)%Z.

(** An array holds as many entries as its shape says. *)
Definition well_formed_array (a : ndarray Scalar) : Prop :=
  Forall (Z.le 0) (shape a) /\
  Z.of_nat (Datatypes.length (data a)) = size_of (shape a).

Definition well_formed (net : list (layer Scalar)) : Prop :=
  Forall (fun l => well_formed_array (kernel l) /\ well_formed_array (bias l))
    net.

(** The network [n_in -> 10 -> 10 -> n_out] that [build_model] builds on
    data with [n_in] feature columns and [n_out] label columns. *)
Definition architecture_for (n_in n_out : Z)
    : list (Z * string * list Z * list Z) :=
  [(10, "relu", [n_in; 10], [10]);
   (10, "relu", [10; 10], [10]);
   (n_out, "softmax", [10; n_out], [n_out])]%Z.

End Cells.
End Notebook.

(** ** Concrete instances, to run the code on inputs *)

Module Demo.
Import Np Keras.

(** The docstring's [cust_fn(state, c)], which is [c * np.sum(state)]. *)
Inductive fn : Type := cust_fn.

Abbreviation world := (@CustomFitness.world Z fn unit).

Definition call (f : fn) (state : list Z) (kw : gmap string Z) : M world Z :=
  match f with
  | cust_fn =>
      match kw !! "c", size kw with
      | Some c, 1 => mret (c * fold_right Z.add 0 state)%Z
      | _, _ => raise (TypeError "cust_fn() takes state and c")
      end
  end.

Definition w0 : world := CustomFitness.World ∅ tt.

Definition kwargs_c10 : gmap string Z := {["c" := 10%Z]}.

(** The heap once [CustomFitness(cust_fn, **kwargs)] has run in [w0]. *)
Definition w1 : world :=
  CustomFitness.World
    {[0 := CustomFitness.Obj (Some cust_fn) (Some "continuous") (Some kwargs_c10)]}
    tt.

(** An integer-valued stand-in for the numeric back end: zero
    initializers, the sum of all installed entries as every loss, the
    sum of the last bias as every metric. *)
#[export] Instance backend : Backend Z unit := {|
  zero := 0%Z;
  glorot_uniform n g := (replicate (Z.to_nat n) 0%Z, g);
  loss_value _ net _ _ := fold_right Z.add 0%Z (Notebook.flatten net);
  metric_value _ net _ _ :=
    match last net with
    | Some l => fold_right Z.add 0%Z (data (bias l))
    | None => 0%Z
    end;
  format_2f z := if (z =? 3)%Z then "3.00" else if (z =? 6)%Z then "6.00" else "9.00"
|}.

Abbreviation nb_world := (@CustomFitness.world Z Notebook.callable (Notebook.ext unit)).

Definition X_train : ndarray Z := NdArray [2; 4]%Z [1; 2; 3; 4; 5; 6; 7; 8]%Z.
Definition y_train : ndarray Z := NdArray [2; 3]%Z [1; 0; 0; 0; 0; 1]%Z.
Definition X_test : ndarray Z := NdArray [1; 4]%Z [4; 3; 2; 1]%Z.
Definition y_test : ndarray Z := NdArray [1; 3]%Z [0; 1; 0]%Z.

(** Stand-ins for the optimizers: a constant state of the problem's length. *)
Definition constant_state (v : Z) (p : Notebook.ContinuousOpt)
    : M nb_world (list Z * Z * list Z) :=
  mret (replicate (Z.to_nat (Notebook.length p)) v, 0%Z, []).

Definition random_hill_climb (p : Notebook.ContinuousOpt)
    (max_attempts max_iters : Z) (curve : bool) (random_state : Z) :=
  constant_state 1 p.
Definition simulated_annealing (p : Notebook.ContinuousOpt)
    (max_attempts max_iters : Z) (curve : bool) (random_state : Z) :=
  constant_state 2 p.
Definition genetic_alg (p : Notebook.ContinuousOpt)
    (max_attempts max_iters : Z) (curve : bool) (random_state pop_size : Z)
    (mutation_prob : Q) :=
  constant_state 3 p.

Definition nb_w0 : nb_world := CustomFitness.World ∅ (Notebook.Ext tt []).

Definition ones : list Z := replicate 193 1%Z.
Definition twos : list Z := replicate 193 2%Z.
Definition threes : list Z := replicate 193 3%Z.
Definition problem : Notebook.ContinuousOpt :=
  {| Notebook.length := 193; Notebook.fitness_fn := 0; Notebook.maximize := false |}.

Definition kwargs_c2 : gmap string Z := {["c" := 2%Z]}.

Definition y_labels : ndarray Z := NdArray [3]%Z [0; 1; 2]%Z.

(** A vector far too short for the network, and one with spare entries. *)
Definition short : list Z := replicate 45 1%Z.
Definition long : list Z := (replicate 193 1%Z ++ replicate 7 5%Z)%list.

End Demo.

(** * Properties of [CustomFitness] *)

Module CustomFitnessFacts.
Import CustomFitness.

Section Facts.
Context {State Arg Val Fn W : Type}.
Variable call : Fn -> State -> gmap string Arg -> M (@world Arg Fn W) Val.

Abbreviation world' := (@world Arg Fn W).

Lemma not_in_supported p : not_in p supported = false <-> is_supported p.
Proof.
  unfold not_in, supported, is_supported. cbn [existsb].
  rewrite negb_false_iff, !orb_true_iff, !String.eqb_eq. intuition discriminate.
Qed.

Lemma not_in_unsupported p : not_in p supported = true <-> ~ is_supported p.
Proof.
  rewrite <- not_in_supported. destruct (not_in p supported); intuition congruence.
Qed.

Lemma fresh_unused (w : world') : heap w !! fresh (dom (heap w)) = None.
Proof. apply not_elem_of_dom, is_fresh. Qed.

Lemma init_accepts self (f : Fn) p (kw : gmap string Arg) (w : world') :
  is_supported p ->
  __init__ self f p kw w =
    (Ok tt,
     World (alter (fun _ => Obj (Some f) (Some p) (Some kw)) self (heap w)) (ext w)).
Proof.
  intros Hp. apply not_in_supported in Hp. unfold __init__. rewrite Hp.
  unfold setattr, modify, mbind, M_bind, bind. cbn.
  do 2 f_equal. rewrite !alter_alter_eq. apply alter_ext. intros [] _. reflexivity.
Qed.

Lemma init_rejects self (f : Fn) p (kw : gmap string Arg) (w : world') :
  ~ is_supported p ->
  __init__ self f p kw w = (Raise (Exception "problem_type does not exist."), w).
Proof.
  intros Hp. apply not_in_unsupported in Hp. unfold __init__. rewrite Hp. reflexivity.
Qed.

Lemma construct_accepts (f : Fn) p (kw : gmap string Arg) (w : world') :
  is_supported p ->
  CustomFitness f (Some p) kw w =
    (Ok (fresh (dom (heap w))),
     World (<[fresh (dom (heap w)) := Obj (Some f) (Some p) (Some kw)]> (heap w))
       (ext w)).
Proof.
  intros Hp. unfold CustomFitness, mbind, M_bind, bind, new. cbn [default].
  rewrite init_accepts by assumption. cbn. unfold mret, M_ret, ret.
  by rewrite alter_insert_eq.
Qed.

Lemma construct_rejects (f : Fn) p (kw : gmap string Arg) (w : world') :
  ~ is_supported p ->
  CustomFitness f (Some p) kw w =
    (Raise (Exception "problem_type does not exist."),
     World (<[fresh (dom (heap w)) := empty_obj]> (heap w)) (ext w)).
Proof.
  intros Hp. unfold CustomFitness, mbind, M_bind, bind, new. cbn [default].
  by rewrite init_rejects.
Qed.

Lemma supported_dec p : {is_supported p} + {~ is_supported p}.
Proof.
  destruct (not_in p supported) eqn:E.
  - right. by apply not_in_unsupported.
  - left. by apply not_in_supported.
Qed.

Lemma default_is_supported : is_supported default_problem_type.
Proof. right; left; reflexivity. Qed.

Lemma constructed_wrapper (f : Fn) op (kw : gmap string Arg) (w w1 : world') l :
  CustomFitness f op kw w = (Ok l, w1) ->
  wrapper_at w1 l f (default default_problem_type op) kw.
Proof.
  change (CustomFitness f op kw w)
    with (CustomFitness f (Some (default default_problem_type op)) kw w).
  destruct (supported_dec (default default_problem_type op)) as [Hp|Hp].
  - rewrite construct_accepts by assumption. intros [= <- <-].
    unfold wrapper_at. cbn. apply lookup_insert_eq.
  - rewrite construct_rejects by assumption. discriminate.
Qed.

Lemma evaluate_at (w : world') l f p kw state :
  wrapper_at w l f p kw -> evaluate call l state w = call f state kw w.
Proof.
  unfold wrapper_at, evaluate, getattr, mbind, M_bind, bind. intros H.
  rewrite H. cbn. rewrite H. cbn.
  destruct (call f state kw w) as [[v|e] w']; reflexivity.
Qed.

(** C1. A wrapper constructed with inner function [f] and keyword
    arguments [kw] evaluates a state vector to exactly what
    [f(state, **kw)] does there: the same value (or the same exception)
    and the same effect. *)
Theorem evaluate_returns_inner (f : Fn) op (kw : gmap string Arg)
    (w0 w1 : world') l (state : State) :
  CustomFitness f op kw w0 = (Ok l, w1) ->
  evaluate call l state w1 = call f state kw w1.
Proof.
  intros Hc. eapply evaluate_at, constructed_wrapper, Hc.
Qed.

(** C2. [__init__] raises exactly when the label is none of
    'discrete', 'continuous', 'tsp', 'either', and so does the
    constructor call; for each of the four labels construction succeeds
    and yields an initialised wrapper. *)
Theorem init_raises_iff_unsupported self (f : Fn) p (kw : gmap string Arg)
    (w : world') :
  (is_raise (__init__ self f p kw w).1 <-> ~ is_supported p) /\
  (is_raise (CustomFitness f (Some p) kw w).1 <-> ~ is_supported p) /\
  (is_supported p ->
   exists l w1, CustomFitness f (Some p) kw w = (Ok l, w1) /\ wrapper_at w1 l f p kw).
Proof.
  destruct (supported_dec p) as [Hp|Hp].
  - rewrite init_accepts, construct_accepts by assumption. cbn.
    repeat split; try tauto.
    intros _. eexists _, _. split; [reflexivity|].
    unfold wrapper_at. cbn. apply lookup_insert_eq.
  - rewrite init_rejects, construct_rejects by assumption. cbn. tauto.
Qed.

(** C6. A rejected construction is atomic: [__init__] raises with the
    interpreter state exactly as it found it, so before any attribute
    assignment; the constructor call yields the exception and no
    wrapper, and all it leaves behind is the freshly allocated object,
    none of whose attributes is set. *)
Theorem rejected_construction_sets_nothing self (f : Fn) p
    (kw : gmap string Arg) (w : world') :
  ~ is_supported p ->
  __init__ self f p kw w = (Raise (Exception "problem_type does not exist."), w) /\
  exists l,
    heap w !! l = None /\
    CustomFitness f (Some p) kw w =
      (Raise (Exception "problem_type does not exist."),
       World (<[l := Obj None None None]> (heap w)) (ext w)).
Proof.
  intros Hp. split; [by apply init_rejects|].
  exists (fresh (dom (heap w))). split; [apply fresh_unused|].
  by apply construct_rejects.
Qed.

(** C8. Constructed without a [problem_type] argument, the wrapper
    reports 'continuous', the default of the [def] line, which is not
    the 'either' that the class docstring announces. *)
Theorem omitted_problem_type_is_continuous (f : Fn) (kw : gmap string Arg)
    (w : world') :
  (exists l w1,
     CustomFitness f None kw w = (Ok l, w1) /\
     get_prob_type l w1 = (Ok "continuous", w1)) /\
  docstring_default_problem_type = "either" /\
  docstring_default_problem_type <> default_problem_type.
Proof.
  split; [|split; [reflexivity|discriminate]].
  destruct (CustomFitness f None kw w) as [[l|e] w1] eqn:Hc.
  - exists l, w1. split; [reflexivity|].
    apply constructed_wrapper in Hc. unfold wrapper_at in Hc.
    unfold get_prob_type, getattr. by rewrite Hc.
  - exfalso. revert Hc.
    change (CustomFitness f None kw w)
      with (CustomFitness f (Some default_problem_type) kw w).
    by rewrite (construct_accepts _ _ _ _ default_is_supported).
Qed.

(** C9. Round trip of the label: for each of the four labels [p] and
    every inner function, [CustomFitness(f, p).get_prob_type()] is [p]. *)
Theorem get_prob_type_round_trip (f : Fn) p (kw : gmap string Arg) (w : world') :
  is_supported p ->
  exists l w1,
    CustomFitness f (Some p) kw w = (Ok l, w1) /\
    get_prob_type l w1 = (Ok p, w1).
Proof.
  intros Hp. eexists _, _. split; [by apply construct_accepts|].
  unfold get_prob_type, getattr. cbn. by rewrite lookup_insert_eq.
Qed.

(** C10. [evaluate] writes nothing of its own: the interpreter state
    after [evaluate] is the one the inner call leaves, so the fields
    [fitness_fn], [problem_type] and [kwargs] are as before whenever the
    inner call leaves the wrapper alone; with a pure inner function the
    whole state is unchanged and repeated calls on the same state vector
    return equal values. *)
Theorem evaluate_leaves_wrapper l (f : Fn) p (kw : gmap string Arg)
    (state : State) (w : world') :
  wrapper_at w l f p kw ->
  (evaluate call l state w).2 = (call f state kw w).2 /\
  (heap (call f state kw w).2 !! l = heap w !! l ->
   wrapper_at (evaluate call l state w).2 l f p kw) /\
  (pure_fn call f ->
   (evaluate call l state w).2 = w /\
   (evaluate call l state (evaluate call l state w).2).1
     = (evaluate call l state w).1 /\
   forall w', wrapper_at w' l f p kw ->
     (evaluate call l state w').1 = (evaluate call l state w).1).
Proof.
  intros Hw. rewrite (evaluate_at _ _ _ _ _ state Hw).
  split; [reflexivity|]. split.
  - unfold wrapper_at in *. congruence.
  - intros Hpure. destruct (Hpure state kw w w) as [Hfix _].
    rewrite Hfix, (evaluate_at _ _ _ _ _ state Hw).
    split; [reflexivity|split; [reflexivity|]].
    intros w' Hw'. rewrite (evaluate_at _ _ _ _ _ state Hw').
    apply Hpure.
Qed.

End Facts.

Lemma evaluate_returns_inner_witness :
  CustomFitness Demo.cust_fn None Demo.kwargs_c10 Demo.w0 = (Ok 0, Demo.w1) /\
  evaluate Demo.call 0 [1; 2; 3; 4; 5]%Z Demo.w1 = (Ok 150%Z, Demo.w1).
Proof.
  split; [reflexivity|].
  rewrite (evaluate_returns_inner Demo.call Demo.cust_fn None Demo.kwargs_c10
             Demo.w0 Demo.w1 0 [1; 2; 3; 4; 5]%Z); reflexivity.
Defined.

Lemma rejected_construction_sets_nothing_witness :
  __init__ 7 Demo.cust_fn "binary" Demo.kwargs_c10 Demo.w1
  = (Raise (Exception "problem_type does not exist."), Demo.w1).
Proof.
  apply (rejected_construction_sets_nothing 7 Demo.cust_fn "binary"
           Demo.kwargs_c10 Demo.w1).
  apply not_in_unsupported. reflexivity.
Defined.

Lemma get_prob_type_round_trip_witness :
  exists l w1,
    CustomFitness Demo.cust_fn (Some "tsp") Demo.kwargs_c10 Demo.w0 = (Ok l, w1) /\
    get_prob_type l w1 = (Ok "tsp", w1).
Proof.
  apply (get_prob_type_round_trip Demo.cust_fn "tsp" Demo.kwargs_c10 Demo.w0).
  right; right; left; reflexivity.
Defined.

Lemma evaluate_leaves_wrapper_witness :
  (evaluate Demo.call 0 [1; 2; 3; 4; 5]%Z Demo.w1).2 = Demo.w1.
Proof.
  destruct (evaluate_leaves_wrapper Demo.call 0 Demo.cust_fn "continuous"
              Demo.kwargs_c10 [1; 2; 3; 4; 5]%Z Demo.w1) as [Heq _];
    [reflexivity|].
  rewrite Heq. reflexivity.
Defined.

(** The docstring's example, run: [fitness.evaluate(state)] is 150. *)
Example docstring_example :
  (l ← CustomFitness Demo.cust_fn None Demo.kwargs_c10;
   evaluate Demo.call l [1; 2; 3; 4; 5]%Z) Demo.w0
  = (Ok 150%Z,
     World {[0 := Obj (Some Demo.cust_fn) (Some "continuous") (Some Demo.kwargs_c10)]} tt).
Proof. reflexivity. Qed.

End CustomFitnessFacts.

(** * Properties of the notebook's cells *)

Module NotebookFacts.
Import Np Keras Notebook.

(** One step of a computation in [outcome]. *)
Ltac outcome_step := cbn [mbind outcome_bind obind].

Section Arithmetic.

Lemma wrap64_small z : (- 2 ^ 63 <= z < 2 ^ 63)%Z -> wrap64 z = z.
Proof. intros Hz. unfold wrap64. rewrite Z.mod_small; lia. Qed.

Lemma size_of_nonneg shp : Forall (Z.le 0) shp -> (0 <= size_of shp)%Z.
Proof.
  induction 1 as [|d shp Hd _ IH]; cbn; [lia|]. by apply Z.mul_nonneg_nonneg.
Qed.

Lemma add64_prod a shp :
  (0 <= a)%Z -> Forall (Z.le 0) shp -> (a + size_of shp < 2 ^ 63)%Z ->
  add64 a (prod shp) = (a + size_of shp)%Z.
Proof.
  intros Ha Hs Hlt. pose proof (size_of_nonneg shp Hs).
  unfold add64, prod. rewrite (wrap64_small (size_of shp)) by lia.
  apply wrap64_small. lia.
Qed.

Lemma forallb_nonneg shp : Forall (Z.le 0) shp -> forallb (Z.leb 0) shp = true.
Proof.
  induction 1 as [|d shp Hd _ IH]; cbn; [done|]. rewrite IH.
  by apply Z.leb_le in Hd as ->.
Qed.

End Arithmetic.

Section Slices.
Context {A : Type}.

Lemma slice_exact (w : list A) a b :
  (0 <= a <= b)%Z -> (b <= Z.of_nat (Datatypes.length w))%Z ->
  slice w a b = take (Z.to_nat (b - a)) (drop (Z.to_nat a) w).
Proof.
  intros Hab Hb. unfold slice, adjust.
  destruct (Z.ltb_spec a 0), (Z.ltb_spec b 0); try lia.
  by rewrite !Z.min_l by lia.
Qed.

Lemma slice_length (w : list A) a b :
  (0 <= a <= b)%Z -> (b <= Z.of_nat (Datatypes.length w))%Z ->
  Z.of_nat (Datatypes.length (slice w a b)) = (b - a)%Z.
Proof.
  intros Hab Hb. rewrite slice_exact by assumption.
  rewrite length_take, length_drop. lia.
Qed.

Lemma reshape_ok (a : list A) shp :
  Forall (Z.le 0) shp -> Z.of_nat (Datatypes.length a) = size_of shp ->
  reshape a shp = Ok (NdArray shp a).
Proof.
  intros Hs Hl. unfold reshape. rewrite forallb_nonneg by assumption.
  by apply Z.eqb_eq in Hl as ->.
Qed.

End Slices.

Section Loops.
Context {Scalar : Type}.
Implicit Types (ls : list (layer Scalar)) (weights : list Scalar).

Lemma parameter_count_cons (l : layer Scalar) ls :
  parameter_count (l :: ls)
  = (size_of (shape (kernel l)) + size_of (shape (bias l)) + parameter_count ls)%Z.
Proof. reflexivity. Qed.

Lemma parameter_count_nonneg ls :
  Forall (fun l => Forall (Z.le 0) (shape (kernel l)) /\
                   Forall (Z.le 0) (shape (bias l))) ls ->
  (0 <= parameter_count ls)%Z.
Proof.
  induction 1 as [|l ls [Hk Hb] _ IH]; [done|].
  pose proof (size_of_nonneg _ Hk). pose proof (size_of_nonneg _ Hb).
  rewrite parameter_count_cons. lia.
Qed.

(** Split the well-formedness of a non-empty list of layers and record
    that every size in sight is non-negative. *)
Ltac sizes Hall :=
  let Hk := fresh "Hk" in
  let Hb := fresh "Hb" in
  let Hrest := fresh "Hrest" in
  inversion Hall as [|? ? [Hk Hb] Hrest]; subst;
  pose proof (size_of_nonneg _ Hk);
  pose proof (size_of_nonneg _ Hb);
  pose proof (parameter_count_nonneg _ Hrest);
  rewrite parameter_count_cons in *.

Lemma loop_installs weights ls start :
  fits start ls ->
  (start + parameter_count ls <= Z.of_nat (Datatypes.length weights))%Z ->
  fitness_function_loop weights start ls
  = Ok (install weights (Z.to_nat start) ls).
Proof.
  revert start. induction ls as [|l rest IH]; intros start (H0 & Hall & Hlt) Hlen;
    cbn [fitness_function_loop install]; [done|].
  sizes Hall.
  rewrite (add64_prod start (shape (kernel l))) by (assumption || lia).
  rewrite (add64_prod _ (shape (bias l))) by (assumption || lia).
  rewrite reshape_ok; [|assumption|rewrite slice_length; lia].
  outcome_step.
  rewrite reshape_ok; [|assumption|rewrite slice_length; lia].
  outcome_step.
  unfold set_weights. cbn [shape]. rewrite !bool_decide_eq_true_2 by reflexivity.
  cbn [andb mbind outcome_bind obind].
  rewrite IH; [|repeat split; (assumption || lia)|lia].
  outcome_step.
  rewrite !slice_exact by lia.
  repeat f_equal; lia.
Qed.

Lemma flatten_install weights ls (start : nat) :
  Forall (fun l => Forall (Z.le 0) (shape (kernel l)) /\
                   Forall (Z.le 0) (shape (bias l))) ls ->
  flatten (install weights start ls)
  = take (Z.to_nat (parameter_count ls)) (drop start weights).
Proof.
  intros Hall. revert start.
  induction Hall as [|l rest [Hk Hb] Hrest IH]; intros start; [done|].
  pose proof (size_of_nonneg _ Hk). pose proof (size_of_nonneg _ Hb).
  pose proof (parameter_count_nonneg _ Hrest).
  cbn [install flatten flat_map kernel bias data]. fold (flatten (install weights
    (start + Z.to_nat (size_of (shape (kernel l)))
     + Z.to_nat (size_of (shape (bias l)))) rest)).
  rewrite IH, parameter_count_cons.
  rewrite !Z2Nat.inj_add by lia.
  rewrite <- !take_take_drop, <- !drop_drop. by rewrite <- app_assoc.
Qed.

Lemma slices_consecutive ls start :
  fits start ls ->
  consecutive start (slices start ls) (start + parameter_count ls).
Proof.
  revert start. induction ls as [|l rest IH]; intros start (H0 & Hall & Hlt).
  - cbn. lia.
  - sizes Hall. cbn [slices consecutive fst snd].
    rewrite (add64_prod start (shape (kernel l))) by (assumption || lia).
    rewrite (add64_prod _ (shape (bias l))) by (assumption || lia).
    repeat split; try lia.
    replace (start + (size_of (shape (kernel l)) + size_of (shape (bias l))
                      + parameter_count rest))%Z
      with (start + size_of (shape (kernel l)) + size_of (shape (bias l))
            + parameter_count rest)%Z by lia.
    apply IH. repeat split; (assumption || lia).
Qed.

Lemma slices_widths ls start :
  fits start ls ->
  map (fun r => (r.2 - r.1)%Z) (slices start ls)
  = flat_map (fun l => [size_of (shape (kernel l)); size_of (shape (bias l))]) ls.
Proof.
  revert start. induction ls as [|l rest IH]; intros start (H0 & Hall & Hlt);
    [done|].
  sizes Hall. cbn [slices map flat_map fst snd app].
  rewrite (add64_prod start (shape (kernel l))) by (assumption || lia).
  rewrite (add64_prod _ (shape (bias l))) by (assumption || lia).
  rewrite IH by (repeat split; (assumption || lia)).
  repeat f_equal; lia.
Qed.

Lemma sum_sizes_from ls acc :
  fits acc ls ->
  fold_left
    (fun a layer =>
       add64 a (add64 (prod (shape (kernel layer))) (prod (shape (bias layer)))))
    ls acc
  = (acc + parameter_count ls)%Z.
Proof.
  revert acc. induction ls as [|l rest IH]; intros acc (H0 & Hall & Hlt).
  - cbn. lia.
  - sizes Hall. cbn [fold_left].
    assert (add64 acc (add64 (prod (shape (kernel l))) (prod (shape (bias l))))
            = (acc + size_of (shape (kernel l)) + size_of (shape (bias l)))%Z)
      as ->.
    { unfold add64 at 2. unfold prod at 1.
      rewrite (wrap64_small (size_of (shape (kernel l)))) by lia.
      fold (add64 (size_of (shape (kernel l))) (prod (shape (bias l)))).
      rewrite add64_prod by (assumption || lia).
      unfold add64. rewrite wrap64_small; lia. }
    rewrite IH by (repeat split; (assumption || lia)). lia.
Qed.

Lemma sum_sizes_exact ls : fits 0 ls -> sum_sizes ls = parameter_count ls.
Proof. intros H. unfold sum_sizes. by rewrite sum_sizes_from. Qed.

Lemma loop_takes_slices weights ls start ls' :
  fitness_function_loop weights start ls = Ok ls' ->
  flat_map (fun l => [data (kernel l); data (bias l)]) ls'
  = map (fun r => slice weights r.1 r.2) (slices start ls).
Proof.
  revert start ls'. induction ls as [|l rest IH]; intros start ls'.
  - intros [= <-]. reflexivity.
  - cbn [fitness_function_loop slices map fst snd].
    destruct (reshape _ (shape (kernel l))) as [k|] eqn:Ek; [|discriminate].
    outcome_step.
    destruct (reshape _ (shape (bias l))) as [b|] eqn:Eb; [|discriminate].
    outcome_step.
    destruct (set_weights l [k; b]) as [l'|] eqn:El; [|discriminate].
    outcome_step.
    destruct (fitness_function_loop weights _ rest) as [rest'|] eqn:Er;
      [|discriminate].
    outcome_step. intros [= <-].
    cbn [flat_map app]. rewrite (IH _ _ Er).
    unfold reshape in Ek, Eb. unfold set_weights in El.
    repeat case_match; simplify_eq. reflexivity.
Qed.

Lemma test_loop_same (results : gmap string (gmap string (entry Scalar)))
    algo state ls start :
  getitem2 results algo "state" = Ok (EState state) ->
  test_accuracies_loop results algo start ls
  = fitness_function_loop state start ls.
Proof.
  intros Hs. revert start. induction ls as [|l rest IH]; intros start; [done|].
  cbn [test_accuracies_loop fitness_function_loop]. rewrite Hs.
  cbn [mbind outcome_bind obind as_array].
  destruct (reshape _ (shape (kernel l))) as [k|]; [|done].
  outcome_step.
  destruct (reshape _ (shape (bias l))) as [b|]; [|done].
  outcome_step.
  destruct (set_weights l [k; b]) as [l'|]; [|done].
  outcome_step. by rewrite IH.
Qed.

End Loops.

Section Intervals.
Implicit Types (rs : list (Z * Z)) (r : Z * Z).

Lemma consecutive_le a rs b : consecutive a rs b -> (a <= b)%Z.
Proof.
  revert a. induction rs as [|r rs IH]; intros a; cbn; [lia|].
  intros (_ & Hle & Hrest). apply IH in Hrest. lia.
Qed.

Lemma consecutive_bounds a rs b r :
  consecutive a rs b -> r ∈ rs -> (a <= r.1 <= r.2)%Z /\ (r.2 <= b)%Z.
Proof.
  revert a. induction rs as [|r0 rs IH]; intros a Hc Hin.
  - by apply elem_of_nil in Hin.
  - destruct Hc as (Hlo & Hle & Hrest). pose proof (consecutive_le _ _ _ Hrest).
    apply elem_of_cons in Hin as [->|Hin]; [lia|].
    destruct (IH _ Hrest Hin). lia.
Qed.

Lemma consecutive_ordered a rs b i j ri rj :
  consecutive a rs b -> rs !! i = Some ri -> rs !! j = Some rj -> i < j ->
  (ri.2 <= rj.1)%Z.
Proof.
  revert a i j. induction rs as [|r0 rs IH]; intros a i j Hc Hi Hj Hlt;
    [done|].
  destruct Hc as (Hlo & Hle & Hrest). destruct j as [|j]; [lia|].
  cbn in Hj. destruct i as [|i].
  - cbn in Hi. injection Hi as ->.
    apply list_elem_of_lookup_2 in Hj.
    destruct (consecutive_bounds _ _ _ _ Hrest Hj). lia.
  - cbn in Hi. eapply (IH _ i j); eauto. lia.
Qed.

Lemma consecutive_disjoint a rs b i j ri rj :
  consecutive a rs b -> rs !! i = Some ri -> rs !! j = Some rj -> i <> j ->
  (ri.2 <= rj.1)%Z \/ (rj.2 <= ri.1)%Z.
Proof.
  intros Hc Hi Hj Hne. destruct (Nat.lt_total i j) as [Hlt|[Heq|Hgt]]; [|done|].
  - left. eapply consecutive_ordered; eauto.
  - right. eapply consecutive_ordered; eauto.
Qed.

Lemma consecutive_cover a rs b k :
  consecutive a rs b ->
  (a <= k < b)%Z <-> exists r, r ∈ rs /\ (r.1 <= k < r.2)%Z.
Proof.
  revert a. induction rs as [|r0 rs IH]; intros a Hc.
  - cbn in Hc. split; [lia|]. intros (r & Hin & _). by apply elem_of_nil in Hin.
  - destruct Hc as (Hlo & Hle & Hrest). pose proof (consecutive_le _ _ _ Hrest).
    specialize (IH _ Hrest). split.
    + intros Hk. destruct (Z.lt_ge_cases k r0.2) as [Hlt|Hge].
      * exists r0. split; [apply list_elem_of_here|lia].
      * destruct (proj1 IH) as (r & Hin & Hr); [lia|].
        exists r. split; [by apply list_elem_of_further|done].
    + intros (r & Hin & Hr). apply elem_of_cons in Hin as [->|Hin]; [lia|].
      destruct (proj2 IH) as [? ?]; [by exists r|]. lia.
Qed.

End Intervals.

Section Monad.
Context {S A B : Type}.

Lemma bind_ok (c : M S A) (k : A -> M S B) s a s' :
  c s = (Ok a, s') -> (c ≫= k) s = k a s'.
Proof. unfold mbind, M_bind, bind. by intros ->. Qed.

End Monad.

Section Model.
Context {Scalar Rng : Type} `{!Backend Scalar Rng}.
Variables X_train X_test y_train y_test : ndarray Scalar.

Abbreviation world := (@CustomFitness.world Scalar callable (ext Rng)).

(** Iris has four features and three classes. *)
Hypothesis X_train_columns : shape X_train !! 1 = Some 4%Z.
Hypothesis y_train_columns : shape y_train !! 1 = Some 3%Z.

(** A freshly built model differs from the next one only in the
    initial values of its parameters, and building it only advances the
    random generator. *)
Lemma build_model_fresh (w : world) :
  exists m g,
    build_model X_train y_train w
    = (Ok m, CustomFitness.World (CustomFitness.heap w)
               (Ext g (stdout (CustomFitness.ext w)))) /\
    map signature (layers m) = architecture /\
    optimizer m = None /\ loss m = None /\ metrics m = [].
Proof.
  unfold build_model, item. rewrite X_train_columns, y_train_columns.
  unfold mbind, M_bind, bind, lift, Notebook.add, Keras.add. cbn.
  destruct (glorot_uniform (4 * 10) _) as [k1 g1]. cbn.
  destruct (glorot_uniform (10 * 10) _) as [k2 g2]. cbn.
  destruct (glorot_uniform (10 * 3) _) as [k3 g3]. cbn.
  eexists _, _. split; [reflexivity|]. done.
Qed.

Lemma architecture_fits (ls : list (layer Scalar)) :
  map signature ls = architecture ->
  fits 0 ls /\ parameter_count ls = 193%Z /\
  forall s, install s 0 ls = network s.
Proof.
  destruct ls as [|[u1 a1 [ks1 kd1] [bs1 bd1]]
                   [|[u2 a2 [ks2 kd2] [bs2 bd2]]
                      [|[u3 a3 [ks3 kd3] [bs3 bd3]] [|]]]]; try discriminate.
  intros [= -> -> -> -> -> -> -> -> -> -> -> ->].
  split; [|split; [reflexivity|reflexivity]].
  unfold fits. split; [lia|]. split; [|by cbn].
  repeat constructor; cbn; lia.
Qed.

Lemma fitness_function_run weights (w : world) :
  193 <= Datatypes.length weights ->
  exists g,
    fitness_function X_train y_train weights w
    = (Ok (loss_value "categorical_crossentropy" (network weights) X_train y_train),
       CustomFitness.World (CustomFitness.heap w)
         (Ext g (stdout (CustomFitness.ext w)))).
Proof.
  intros Hlen. destruct (build_model_fresh w) as (m & g & Hb & Hsig & Ho & Hl & Hm).
  destruct (architecture_fits _ Hsig) as (Hfits & Hcount & Hinst).
  exists g. unfold fitness_function. rewrite (bind_ok _ _ _ _ _ Hb).
  rewrite loop_installs by (assumption || lia). cbn [Z.to_nat]. rewrite Hinst.
  reflexivity.
Qed.

Lemma test_iteration algo rest
    (results : gmap string (gmap string (entry Scalar))) acc s (w : world) :
  getitem2 results algo "state" = Ok (EState s) ->
  193 <= Datatypes.length s ->
  exists g,
    test_accuracies_for X_train X_test y_train y_test (algo :: rest) results acc w
    = test_accuracies_for X_train X_test y_train y_test rest results
        (<[algo := metric_value "accuracy" (network s) X_test y_test]> acc)
        (CustomFitness.World (CustomFitness.heap w)
           (Ext g (stdout (CustomFitness.ext w) ++
                   ["Test accuracy for " ++ algo ++ ": " ++
                    format_2f (metric_value "accuracy" (network s) X_test y_test)]))).
Proof.
  intros Hs Hlen. destruct (build_model_fresh w) as (m & g & Hb & Hsig & Ho & Hl & Hm).
  destruct (architecture_fits _ Hsig) as (Hfits & Hcount & Hinst).
  exists g. cbn [test_accuracies_for]. rewrite (bind_ok _ _ _ _ _ Hb).
  rewrite (test_loop_same _ _ _ _ _ Hs).
  rewrite loop_installs by (assumption || lia). cbn [Z.to_nat]. rewrite Hinst.
  reflexivity.
Qed.

Lemma problem_run n (w : world) :
  exists l w1,
    problem n w = (Ok {| length := n; fitness_fn := l; maximize := false |}, w1) /\
    CustomFitness.wrapper_at w1 l fitness_function_def "continuous" ∅ /\
    CustomFitness.ext w1 = CustomFitness.ext w.
Proof.
  unfold problem.
  change (CustomFitness.CustomFitness fitness_function_def None ∅)
    with (CustomFitness.CustomFitness (W := ext Rng) (Arg := Scalar)
            fitness_function_def (Some CustomFitness.default_problem_type) ∅).
  eexists _, _. split.
  - erewrite bind_ok;
      [|apply CustomFitnessFacts.construct_accepts,
          CustomFitnessFacts.default_is_supported].
    reflexivity.
  - split; [|reflexivity]. unfold CustomFitness.wrapper_at. cbn.
    apply lookup_insert_eq.
Qed.

(** C3. On a weight vector, [fitness_function] returns the categorical
    cross-entropy loss of the network carrying those weights on the
    training set, neither a metric nor anything computed from the test
    set; the problem is built with [maximize=False] around the wrapper
    of that function, whose [evaluate] is therefore this training loss. *)
Theorem fitness_is_training_loss weights (w : world) :
  193 <= Datatypes.length weights ->
  (exists g,
     fitness_function X_train y_train weights w
     = (Ok (loss_value "categorical_crossentropy" (network weights)
              X_train y_train),
        CustomFitness.World (CustomFitness.heap w)
          (Ext g (stdout (CustomFitness.ext w))))) /\
  (forall n, exists p w1 g,
     problem n w = (Ok p, w1) /\ maximize p = false /\
     CustomFitness.evaluate (call X_train y_train) (fitness_fn p) weights w1
     = (Ok (loss_value "categorical_crossentropy" (network weights)
              X_train y_train),
        CustomFitness.World (CustomFitness.heap w1)
          (Ext g (stdout (CustomFitness.ext w1))))).
Proof.
  intros Hlen. split; [by apply fitness_function_run|].
  intros n. destruct (problem_run n w) as (l & w1 & Hp & Hw & _).
  destruct (fitness_function_run weights w1 Hlen) as [g Hf].
  eexists _, w1, g. split; [exact Hp|]. split; [reflexivity|].
  cbn [fitness_fn].
  rewrite (CustomFitnessFacts.evaluate_at _ _ _ _ _ _ weights Hw).
  exact Hf.
Qed.

(** C5. The [length] handed to [ContinuousOpt] is [total_weights], and
    that is the parameter count of the network 4 -> 10 -> 10 -> 3 that
    [build_model] builds: weight-matrix size plus bias-vector size,
    summed over its layers, 193 in all. *)
Theorem state_length_is_parameter_count (w : world) :
  (exists m w1,
     build_model X_train y_train w = (Ok m, w1) /\
     map signature (layers m) = architecture) /\
  exists n w1 p w2,
    total_weights X_train y_train w = (Ok n, w1) /\
    problem n w1 = (Ok p, w2) /\
    length p = n /\
    n = architecture_parameters /\ n = 193%Z.
Proof.
  destruct (build_model_fresh w) as (m & g & Hb & Hsig & Ho & Hl & Hm).
  destruct (architecture_fits _ Hsig) as (Hfits & Hcount & Hinst).
  split; [by eexists _, _|].
  destruct (problem_run (sum_sizes (layers m))
              (CustomFitness.World (CustomFitness.heap w)
                 (Ext g (stdout (CustomFitness.ext w)))))
    as (l & w2 & Hp & _).
  eexists _, _, _, w2. split.
  { unfold total_weights. rewrite (bind_ok _ _ _ _ _ Hb). reflexivity. }
  cbn [layers compile]. split; [exact Hp|]. split; [reflexivity|].
  rewrite sum_sizes_exact, Hcount by assumption. done.
Qed.

(** C4. The reconstruction loop of [fitness_function] reads the flat
    vector in consecutive slices, for each layer in network order a
    slice as long as the weight matrix and then one as long as the bias
    vector: the slices follow one another from 0 to the total parameter
    count, so they are pairwise disjoint and cover exactly that index
    range; each array the loop installs is the slice at its range, and
    the installed parameters read back in order are the vector; the
    loop of the test-evaluation cell computes the same. *)
Theorem reconstruction_partitions_state (w : world) :
  exists m w1,
    build_model X_train y_train w = (Ok m, w1) /\
    let rs := slices 0 (layers m) in
    let total := sum_sizes (layers m) in
    consecutive 0 rs total /\
    map (fun r => (r.2 - r.1)%Z) rs
    = flat_map (fun l => [size_of (shape (kernel l)); size_of (shape (bias l))])
        (layers m) /\
    (forall i j ri rj, rs !! i = Some ri -> rs !! j = Some rj -> i <> j ->
       (ri.2 <= rj.1)%Z \/ (rj.2 <= ri.1)%Z) /\
    (forall k, (0 <= k < total)%Z <-> exists r, r ∈ rs /\ (r.1 <= k < r.2)%Z) /\
    (forall weights, Z.of_nat (Datatypes.length weights) = total ->
       exists ls,
         fitness_function_loop weights 0 (layers m) = Ok ls /\
         flat_map (fun l => [data (kernel l); data (bias l)]) ls
         = map (fun r => slice weights r.1 r.2) rs /\
         map signature ls = map signature (layers m) /\
         flatten ls = weights) /\
    (forall (results : gmap string (gmap string (entry Scalar))) algo state,
       getitem2 results algo "state" = Ok (EState state) ->
       test_accuracies_loop results algo 0 (layers m)
       = fitness_function_loop state 0 (layers m)).
Proof.
  destruct (build_model_fresh w) as (m & g & Hb & Hsig & Ho & Hl & Hm).
  destruct (architecture_fits _ Hsig) as (Hfits & Hcount & Hinst).
  eexists _, _. split; [exact Hb|]. cbn zeta.
  rewrite sum_sizes_exact by assumption.
  pose proof (slices_consecutive _ _ Hfits) as Hc. rewrite Z.add_0_l in Hc.
  split; [exact Hc|]. split; [by apply slices_widths|].
  split; [intros; by eapply consecutive_disjoint|].
  split; [intros; by apply consecutive_cover|].
  split; [|intros; by apply test_loop_same].
  intros weights Hlen. exists (install weights 0 (layers m)).
  assert (fitness_function_loop weights 0 (layers m)
          = Ok (install weights 0 (layers m))) as Hloop.
  { rewrite loop_installs by (assumption || lia). reflexivity. }
  split; [exact Hloop|]. split; [by apply loop_takes_slices|].
  destruct Hfits as (_ & Hall & _). split.
  - rewrite Hinst, Hsig. reflexivity.
  - rewrite flatten_install by assumption. rewrite drop_0.
    apply take_ge. lia.
Qed.

Variable random_hill_climb simulated_annealing :
  ContinuousOpt -> forall (max_attempts max_iters : Z) (curve : bool)
    (random_state : Z), M world (list Scalar * Scalar * list Scalar).
Variable genetic_alg :
  ContinuousOpt -> forall (max_attempts max_iters : Z) (curve : bool)
    (random_state pop_size : Z) (mutation_prob : Q),
    M world (list Scalar * Scalar * list Scalar).

Lemma store_run algo (run : M world (list Scalar * Scalar * list Scalar))
    (rh : gmap string (gmap string (entry Scalar))
          * gmap string (gmap string (entry Scalar)))
    (w w' : world) s f c i1 i2 :
  run w = (Ok (s, f, c), w') ->
  rh.1 !! algo = Some i1 -> rh.2 !! algo = Some i2 ->
  store algo run rh w
  = (Ok (<[algo := <["fitness" := EFitness f]> (<["state" := EState s]> i1)]> rh.1,
         <[algo := <["curve" := ECurve c]> i2]> rh.2), w').
Proof.
  intros Hrun H1 H2. unfold store. rewrite (bind_ok _ _ _ _ _ Hrun).
  unfold setitem2, mbind, M_bind, bind, lift, mret, M_ret, ret.
  by rewrite H1, H2, lookup_insert_eq, insert_insert_eq.
Qed.

Lemma optimize_run p (w0 wa wb wc : world) s1 f1 c1 s2 f2 c2 s3 f3 c3 :
  random_hill_climb p 100 1000 true 42 w0 = (Ok (s1, f1, c1), wa) ->
  simulated_annealing p 100 1000 true 42 wa = (Ok (s2, f2, c2), wb) ->
  genetic_alg p 100 1000 true 42 300 (1 # 5) wb = (Ok (s3, f3, c3), wc) ->
  exists results histories,
    optimize random_hill_climb simulated_annealing genetic_alg p w0
    = (Ok (results, histories), wc) /\
    getitem2 results "RHC" "state" = Ok (EState s1) /\
    getitem2 results "SA" "state" = Ok (EState s2) /\
    getitem2 results "GA" "state" = Ok (EState s3).
Proof.
  intros H1 H2 H3. unfold optimize.
  erewrite bind_ok; [|eapply (store_run _ _ _ _ _ _ _ _ ∅ ∅ H1); reflexivity].
  erewrite bind_ok;
    [|eapply (store_run _ _ _ _ _ _ _ _ ∅ ∅ H2); cbn [fst snd containers];
      by simplify_map_eq].
  erewrite (store_run _ _ _ _ _ _ _ _ ∅ ∅ H3);
    [|cbn [fst snd containers]; by simplify_map_eq..].
  eexists _, _. split; [reflexivity|].
  unfold getitem2. cbn [fst snd containers]. by simplify_map_eq.
Qed.

(** C7. For each of random hill climbing, simulated annealing and the
    genetic algorithm, the last cell installs the best state that
    algorithm returned into a freshly built model, and records under the
    algorithm's name, and prints, that model's accuracy on the test set
    [(X_test, y_test)]: three entries and three lines, in this order. *)
Theorem test_accuracy_per_algorithm p (w0 wa wb wc : world)
    s1 f1 c1 s2 f2 c2 s3 f3 c3 :
  random_hill_climb p 100 1000 true 42 w0 = (Ok (s1, f1, c1), wa) ->
  simulated_annealing p 100 1000 true 42 wa = (Ok (s2, f2, c2), wb) ->
  genetic_alg p 100 1000 true 42 300 (1 # 5) wb = (Ok (s3, f3, c3), wc) ->
  193 <= Datatypes.length s1 ->
  193 <= Datatypes.length s2 ->
  193 <= Datatypes.length s3 ->
  let accuracy s := metric_value "accuracy" (network s) X_test y_test in
  exists results histories g,
    optimize random_hill_climb simulated_annealing genetic_alg p w0
    = (Ok (results, histories), wc) /\
    test_accuracies X_train X_test y_train y_test results wc
    = (Ok (<["GA" := accuracy s3]>
             (<["SA" := accuracy s2]> (<["RHC" := accuracy s1]> ∅))),
       CustomFitness.World (CustomFitness.heap wc)
         (Ext g
            (stdout (CustomFitness.ext wc) ++
             ["Test accuracy for RHC: " ++ format_2f (accuracy s1);
              "Test accuracy for SA: " ++ format_2f (accuracy s2);
              "Test accuracy for GA: " ++ format_2f (accuracy s3)]))).
Proof.
  intros H1 H2 H3 L1 L2 L3 accuracy.
  destruct (optimize_run _ _ _ _ _ _ _ _ _ _ _ _ _ _ H1 H2 H3)
    as (results & histories & Hopt & G1 & G2 & G3).
  exists results, histories. unfold test_accuracies.
  destruct (test_iteration "RHC" ["SA"; "GA"] results ∅ s1 wc G1 L1) as [ga ->].
  match goal with
  | |- context [test_accuracies_for _ _ _ _ ["SA"; "GA"] _ ?acc ?w] =>
      destruct (test_iteration "SA" ["GA"] results acc s2 w G2 L2) as [gb ->]
  end.
  match goal with
  | |- context [test_accuracies_for _ _ _ _ ["GA"] _ ?acc ?w] =>
      destruct (test_iteration "GA" [] results acc s3 w G3 L3) as [gc ->]
  end.
  exists gc. split; [exact Hopt|]. cbn.
  by rewrite <- !app_assoc.
Qed.

End Model.
Section Runs.
Import Demo.

Lemma fitness_is_training_loss_witness :
  (fitness_function Demo.X_train Demo.y_train ones nb_w0).1 = Ok 193%Z.
Proof.
  destruct (fitness_is_training_loss Demo.X_train Demo.y_train eq_refl eq_refl
              ones nb_w0) as [[g Hg] _]; [vm_compute; lia|].
  rewrite Hg. reflexivity.
Defined.

Lemma state_length_is_parameter_count_witness :
  (total_weights Demo.X_train Demo.y_train nb_w0).1 = Ok 193%Z.
Proof.
  destruct (state_length_is_parameter_count Demo.X_train Demo.y_train
              eq_refl eq_refl nb_w0)
    as [_ (n & w1 & p & w2 & Ht & _ & _ & _ & Hn)].
  rewrite Ht, <- Hn. reflexivity.
Defined.

Lemma reconstruction_partitions_state_witness :
  exists m w1,
    build_model Demo.X_train Demo.y_train nb_w0 = (Ok m, w1) /\
    consecutive 0 (slices 0 (layers m)) (sum_sizes (layers m)).
Proof.
  destruct (reconstruction_partitions_state Demo.X_train Demo.y_train
              eq_refl eq_refl nb_w0) as (m & w1 & Hb & Hc & _).
  exists m, w1. split; [exact Hb|exact Hc].
Defined.

Lemma test_accuracy_per_algorithm_witness :
  exists results histories g,
    optimize Demo.random_hill_climb Demo.simulated_annealing Demo.genetic_alg
      Demo.problem nb_w0
    = (Ok (results, histories), nb_w0) /\
    test_accuracies Demo.X_train Demo.X_test Demo.y_train Demo.y_test results nb_w0
    = (Ok (<["GA" := 9%Z]> (<["SA" := 6%Z]> (<["RHC" := 3%Z]> ∅))),
       CustomFitness.World ∅
         (Ext g ["Test accuracy for RHC: 3.00";
                 "Test accuracy for SA: 6.00";
                 "Test accuracy for GA: 9.00"])).
Proof.
  destruct (test_accuracy_per_algorithm Demo.X_train Demo.X_test Demo.y_train
              Demo.y_test eq_refl eq_refl
              Demo.random_hill_climb Demo.simulated_annealing Demo.genetic_alg
              Demo.problem nb_w0 nb_w0 nb_w0 nb_w0
              ones 0%Z [] twos 0%Z [] threes 0%Z [])
    as (results & histories & g & Ho & Ht);
    try reflexivity; try (vm_compute; lia).
  exists results, histories, g. split; [exact Ho|].
  rewrite Ht. reflexivity.
Defined.

(** The slices the loop takes on the notebook's network. *)
Example slices_of_the_network :
  slices 0 (network ones)
  = [(0, 40); (40, 50); (50, 150); (150, 160); (160, 190); (190, 193)]%Z.
Proof. reflexivity. Qed.

(** A vector one entry short of the parameter count cannot be reshaped
    into the last bias vector. *)
Example short_vector_is_refused :
  (fitness_function Demo.X_train Demo.y_train (replicate 192 1%Z) nb_w0).1
  = Raise (ValueError "cannot reshape array").
Proof. vm_compute. reflexivity. Qed.

End Runs.

End NotebookFacts.

(** * Further properties of [CustomFitness] *)

Module CustomFitnessMore.
Import CustomFitness CustomFitnessFacts.

Section More.
Context {State Arg Val Fn W : Type}.
Variable call : Fn -> State -> gmap string Arg -> M (@world Arg Fn W) Val.

Abbreviation world' := (@world Arg Fn W).

Lemma construct_default (f : Fn) op (kw : gmap string Arg) (w : world') :
  CustomFitness f op kw w
  = CustomFitness f (Some (default default_problem_type op)) kw w.
Proof. reflexivity. Qed.

(** X1. A constructor call, accepted or rejected, leaves every object
    already on the heap and the rest of the interpreter state as they
    were; when it returns a wrapper, that wrapper sits at a location
    that was unused before and carries the three fields. *)
Theorem construction_preserves_heap (f : Fn) op (kw : gmap string Arg)
    (w : world') :
  ext (CustomFitness f op kw w).2 = ext w /\
  (forall l o, heap w !! l = Some o ->
     heap (CustomFitness f op kw w).2 !! l = Some o) /\
  (forall l, (CustomFitness f op kw w).1 = Ok l ->
     heap w !! l = None /\
     wrapper_at (CustomFitness f op kw w).2 l f
       (default default_problem_type op) kw).
Proof.
  rewrite construct_default.
  pose proof (fresh_unused w) as Hfresh.
  destruct (supported_dec (default default_problem_type op)) as [Hp|Hp].
  - rewrite construct_accepts by assumption. cbn [fst snd ext heap].
    split; [reflexivity|]. split.
    + intros l o Hl. rewrite lookup_insert_ne; [done|congruence].
    + intros l [= <-]. split; [done|]. apply lookup_insert_eq.
  - rewrite construct_rejects by assumption. cbn [fst snd ext heap].
    split; [reflexivity|]. split; [|discriminate].
    intros l o Hl. rewrite lookup_insert_ne; [done|congruence].
Qed.

(** X2. Two wrappers built one after the other are distinct objects:
    building the second leaves the first as it was, so the first still
    evaluates with its own inner function and keyword arguments and
    still reports its own problem type. *)
Theorem wrappers_are_independent (f1 f2 : Fn) op1 op2
    (kw1 kw2 : gmap string Arg) (w0 w1 w2 : world') l1 l2 (state : State) :
  CustomFitness f1 op1 kw1 w0 = (Ok l1, w1) ->
  CustomFitness f2 op2 kw2 w1 = (Ok l2, w2) ->
  l1 <> l2 /\
  evaluate call l1 state w2 = call f1 state kw1 w2 /\
  evaluate call l2 state w2 = call f2 state kw2 w2 /\
  get_prob_type l1 w2 = (Ok (default default_problem_type op1), w2) /\
  get_prob_type l2 w2 = (Ok (default default_problem_type op2), w2).
Proof.
  intros H1 H2.
  pose proof (constructed_wrapper _ _ _ _ _ _ H1) as Hw1.
  pose proof (constructed_wrapper _ _ _ _ _ _ H2) as Hw2.
  rewrite construct_default in H2.
  destruct (supported_dec (default default_problem_type op2)) as [Hp|Hp];
    [|by rewrite construct_rejects in H2].
  rewrite construct_accepts in H2 by assumption. injection H2 as <- <-.
  pose proof (fresh_unused w1) as Hfresh.
  assert (l1 <> fresh (dom (heap w1))) as Hne.
  { intros ->. unfold wrapper_at in Hw1. congruence. }
  assert (wrapper_at
            (World (<[fresh (dom (heap w1)) :=
                        Obj (Some f2) (Some (default default_problem_type op2))
                          (Some kw2)]> (heap w1)) (ext w1))
            l1 f1 (default default_problem_type op1) kw1) as Hw1'.
  { unfold wrapper_at in *. cbn. by rewrite lookup_insert_ne. }
  split; [exact Hne|].
  split; [by eapply evaluate_at|]. split; [by eapply evaluate_at|].
  unfold get_prob_type, getattr. unfold wrapper_at in Hw1', Hw2.
  by rewrite Hw1', Hw2.
Qed.

(** X3. [__init__] run again on an object that exists accepts a
    supported label whatever the object held before: afterwards the
    object carries exactly the new three fields, and no other object and
    nothing else of the interpreter state has changed. *)
Theorem init_overwrites self (f : Fn) p (kw : gmap string Arg)
    (w : world') o :
  heap w !! self = Some o ->
  is_supported p ->
  exists w1,
    __init__ self f p kw w = (Ok tt, w1) /\
    wrapper_at w1 self f p kw /\
    ext w1 = ext w /\
    forall l, l <> self -> heap w1 !! l = heap w !! l.
Proof.
  intros Ho Hp. eexists. split; [by apply init_accepts|].
  unfold wrapper_at. cbn. split; [|split; [reflexivity|]].
  - by rewrite lookup_alter_eq, Ho.
  - intros l Hl. by rewrite lookup_alter_ne.
Qed.

End More.

Lemma wrappers_are_independent_witness :
  evaluate Demo.call 0 [1; 2; 3]%Z
    (CustomFitness Demo.cust_fn (Some "either") Demo.kwargs_c2 Demo.w1).2
  = (Ok 60%Z,
     (CustomFitness Demo.cust_fn (Some "either") Demo.kwargs_c2 Demo.w1).2).
Proof.
  destruct (wrappers_are_independent Demo.call Demo.cust_fn Demo.cust_fn
              None (Some "either") Demo.kwargs_c10 Demo.kwargs_c2
              Demo.w0 Demo.w1
              (CustomFitness Demo.cust_fn (Some "either") Demo.kwargs_c2 Demo.w1).2
              0 1 [1; 2; 3]%Z) as (_ & He & _); [reflexivity..|].
  rewrite He. reflexivity.
Defined.

Lemma init_overwrites_witness :
  exists w1,
    __init__ 0 Demo.cust_fn "tsp" Demo.kwargs_c2 Demo.w1 = (Ok tt, w1) /\
    wrapper_at w1 0 Demo.cust_fn "tsp" Demo.kwargs_c2.
Proof.
  destruct (init_overwrites 0 Demo.cust_fn "tsp" Demo.kwargs_c2 Demo.w1
              (Obj (Some Demo.cust_fn) (Some "continuous") (Some Demo.kwargs_c10)))
    as (w1 & Hi & Hw & _); [reflexivity|right; right; left; reflexivity|].
  exists w1. split; [exact Hi|exact Hw].
Defined.

End CustomFitnessMore.

(** * Further properties of the notebook's cells *)

Module NotebookMore.
Import Np Keras Notebook NotebookFacts.

Section Arrays.
Context {A : Type}.

Lemma slice_clipped_length (w : list A) a b :
  (0 <= a <= b)%Z ->
  Z.of_nat (Datatypes.length (slice w a b))
  = Z.max 0 (Z.min b (Z.of_nat (Datatypes.length w))
             - Z.min a (Z.of_nat (Datatypes.length w))).
Proof.
  intros Hab. unfold slice, adjust.
  destruct (Z.ltb_spec a 0), (Z.ltb_spec b 0); try lia.
  rewrite length_take, length_drop. lia.
Qed.

Lemma reshape_refuses (a : list A) shp :
  Z.of_nat (Datatypes.length a) <> size_of shp ->
  reshape a shp = Raise (ValueError "cannot reshape array").
Proof.
  intros Hne. unfold reshape. apply Z.eqb_neq in Hne as ->.
  by rewrite andb_false_r.
Qed.

Lemma reshape_inv (a : list A) shp r :
  reshape a shp = Ok r ->
  r = NdArray shp a /\ Forall (Z.le 0) shp /\
  Z.of_nat (Datatypes.length a) = size_of shp.
Proof.
  unfold reshape. destruct (forallb _ shp) eqn:Hall; [|discriminate].
  destruct (Z.eqb_spec (Z.of_nat (Datatypes.length a)) (size_of shp));
    [|discriminate].
  intros [= <-]. split; [done|]. split; [|done].
  apply Forall_forall. intros d Hd.
  rewrite forallb_forall in Hall. apply Z.leb_le, Hall.
  by apply list_elem_of_In.
Qed.

End Arrays.

Section Monad.
Context {S A B : Type}.

Lemma bind_raise (c : M S A) (k : A -> M S B) s e s' :
  c s = (Raise e, s') -> (c ≫= k) s = (Raise e, s').
Proof. unfold mbind, M_bind, bind. by intros ->. Qed.

End Monad.

Section Loops.
Context {Scalar : Type}.
Implicit Types (ls net : list (layer Scalar)) (weights : list Scalar).

(** Split the well-formedness of a non-empty list of layers and note
    that its sizes are non-negative. *)
Ltac layer_sizes Hall :=
  let Hk := fresh "Hk" in
  let Hb := fresh "Hb" in
  let Hrest := fresh "Hrest" in
  inversion Hall as [|? ? [Hk Hb] Hrest]; subst;
  pose proof (size_of_nonneg _ Hk);
  pose proof (size_of_nonneg _ Hb);
  pose proof (parameter_count_nonneg _ Hrest);
  rewrite parameter_count_cons in *.

Lemma loop_refuses_short weights ls start :
  fits start ls ->
  (start <= Z.of_nat (Datatypes.length weights))%Z ->
  (Z.of_nat (Datatypes.length weights) < start + parameter_count ls)%Z ->
  fitness_function_loop weights start ls
  = Raise (ValueError "cannot reshape array").
Proof.
  revert start. induction ls as [|l rest IH]; intros start (H0 & Hall & Hlt) Hlo Hhi.
  { cbn in Hhi. lia. }
  layer_sizes Hall. cbn [fitness_function_loop].
  rewrite (add64_prod start (shape (kernel l))) by (assumption || lia).
  rewrite (add64_prod _ (shape (bias l))) by (assumption || lia).
  destruct (Z.lt_ge_cases (Z.of_nat (Datatypes.length weights))
              (start + size_of (shape (kernel l)))) as [Hk'|Hk'].
  { rewrite (reshape_refuses (slice weights start _) (shape (kernel l)));
      [reflexivity|]. rewrite slice_clipped_length by lia. lia. }
  rewrite (reshape_ok (slice weights start _) (shape (kernel l)));
    [|assumption|rewrite slice_length; lia].
  outcome_step.
  destruct (Z.lt_ge_cases (Z.of_nat (Datatypes.length weights))
              (start + size_of (shape (kernel l)) + size_of (shape (bias l))))
    as [Hb'|Hb'].
  { rewrite reshape_refuses; [reflexivity|]. rewrite slice_clipped_length by lia. lia. }
  rewrite reshape_ok; [|assumption|rewrite slice_length; lia]. outcome_step.
  unfold set_weights. cbn [shape]. rewrite !bool_decide_eq_true_2 by reflexivity.
  cbn [andb]. outcome_step.
  rewrite IH; [done| |lia|lia]. repeat split; (assumption || lia).
Qed.

Lemma loop_result_invariant weights ls start ls' :
  fitness_function_loop weights start ls = Ok ls' ->
  map signature ls' = map signature ls /\ well_formed ls'.
Proof.
  revert start ls'. induction ls as [|l rest IH]; intros start ls'.
  { intros [= <-]. split; [done|constructor]. }
  cbn [fitness_function_loop].
  destruct (reshape _ (shape (kernel l))) as [k|] eqn:Ek; [|discriminate].
  outcome_step.
  destruct (reshape _ (shape (bias l))) as [b|] eqn:Eb; [|discriminate].
  outcome_step.
  destruct (set_weights l [k; b]) as [l'|] eqn:El; [|discriminate].
  outcome_step.
  destruct (fitness_function_loop weights _ rest) as [rest'|] eqn:Er;
    [|discriminate].
  outcome_step. intros [= <-].
  apply reshape_inv in Ek as (-> & Hk1 & Hk2), Eb as (-> & Hb1 & Hb2).
  unfold set_weights in El. cbn [shape] in El.
  rewrite !bool_decide_eq_true_2 in El by reflexivity. injection El as <-.
  destruct (IH _ _ Er) as [Hsig Hwf]. split.
  - cbn [map]. by rewrite Hsig.
  - constructor; [|done]. by split.
Qed.

Lemma install_flatten net (pre post : list Scalar) :
  well_formed net ->
  install (pre ++ flatten net ++ post) (Datatypes.length pre) net = net.
Proof.
  intros Hwf. revert pre.
  induction Hwf as [|[u a [ks kd] [bs bd]] rest [[Hk1 Hk2] [Hb1 Hb2]] _ IH];
    intros pre; [done|].
  cbn [shape data kernel bias] in *.
  cbn [install flatten flat_map shape data kernel bias units activation].
  fold (flatten rest).
  replace (Z.to_nat (size_of ks)) with (Datatypes.length kd) by lia.
  replace (Z.to_nat (size_of bs)) with (Datatypes.length bd) by lia.
  rewrite <- !app_assoc.
  rewrite drop_app_length, take_app_length.
  rewrite <- (length_app pre kd), app_assoc, drop_app_length, take_app_length.
  rewrite <- (length_app (pre ++ kd) bd), app_assoc.
  rewrite IH. reflexivity.
Qed.

Lemma well_formed_fits net :
  well_formed net -> (parameter_count net < 2 ^ 63)%Z -> fits 0 net.
Proof.
  intros Hwf Hlt. split; [lia|]. split; [|lia].
  eapply Forall_impl; [exact Hwf|]. intros l [[? _] [? _]]. by split.
Qed.

Lemma flatten_length net :
  well_formed net ->
  Z.of_nat (Datatypes.length (flatten net)) = parameter_count net.
Proof.
  induction 1 as [|l rest [[_ Hk] [_ Hb]] _ IH]; [done|].
  rewrite parameter_count_cons. cbn [flatten flat_map]. fold (flatten rest).
  rewrite !length_app. lia.
Qed.

(** X4. Whenever the reconstruction loop succeeds, on any layers and any
    vector, it has kept the number of layers and each layer's width,
    activation and array shapes, and every array it installed holds
    exactly as many entries as its shape says. *)
Theorem reconstruction_keeps_shapes weights ls start ls' :
  fitness_function_loop weights start ls = Ok ls' ->
  Datatypes.length ls' = Datatypes.length ls /\
  map signature ls' = map signature ls /\
  well_formed ls'.
Proof.
  intros Hloop. destruct (loop_result_invariant _ _ _ _ Hloop) as [Hsig Hwf].
  split; [|by split].
  by rewrite <- (length_map signature ls'), Hsig, length_map.
Qed.


(** X6. Loading a network's own parameters back into it changes
    nothing: on a network whose arrays match their shapes, the
    reconstruction loop fed the flattened parameters returns that very
    network, whatever follows the parameters in the vector. *)
Theorem flatten_then_load net (post : list Scalar) :
  well_formed net ->
  (parameter_count net < 2 ^ 63)%Z ->
  fitness_function_loop (flatten net ++ post) 0 net = Ok net.
Proof.
  intros Hwf Hlt. rewrite loop_installs.
  - f_equal. apply (install_flatten net [] post Hwf).
  - by apply well_formed_fits.
  - rewrite length_app, Nat2Z.inj_add, flatten_length by assumption. lia.
Qed.

(** X7. A vector that ends before the last parameter is refused: for
    any layers within [np.int64] and any vector holding fewer entries
    than [start] plus the parameter count, the loop raises the
    [ValueError] of [reshape], at whichever layer runs short. *)
Theorem short_vector_is_rejected weights ls start :
  fits start ls ->
  (start <= Z.of_nat (Datatypes.length weights))%Z ->
  (Z.of_nat (Datatypes.length weights) < start + parameter_count ls)%Z ->
  fitness_function_loop weights start ls
  = Raise (ValueError "cannot reshape array").
Proof. apply loop_refuses_short. Qed.


Lemma install_signature weights ls1 ls2 (start : nat) :
  map signature ls1 = map signature ls2 ->
  install weights start ls1 = install weights start ls2.
Proof.
  revert ls2 start. induction ls1 as [|l1 ls1 IH]; intros [|l2 ls2] start;
    try discriminate; [done|].
  cbn [map]. unfold signature at 1 3. intros [= Hu Ha Hk Hb Hrest].
  cbn [install]. rewrite Hu, Ha, Hk, Hb. f_equal. by apply IH.
Qed.

Lemma take_drop_take (l : list Scalar) k m n :
  k + m <= n -> take m (drop k (take n l)) = take m (drop k l).
Proof.
  intros Hle. rewrite !take_drop_commute, take_take. do 2 f_equal. lia.
Qed.

Lemma install_take weights ls (start n : nat) :
  Forall (fun l => Forall (Z.le 0) (shape (kernel l)) /\
                   Forall (Z.le 0) (shape (bias l))) ls ->
  (Z.of_nat start + parameter_count ls <= Z.of_nat n)%Z ->
  install (take n weights) start ls = install weights start ls.
Proof.
  intros Hall. revert start.
  induction Hall as [|l rest [Hk Hb] Hrest IH]; intros start Hn; [done|].
  pose proof (size_of_nonneg _ Hk). pose proof (size_of_nonneg _ Hb).
  pose proof (parameter_count_nonneg _ Hrest).
  rewrite parameter_count_cons in Hn.
  cbn [install]. rewrite !take_drop_take by lia. f_equal. apply IH. lia.
Qed.

End Loops.

Section Widths.
Context {Scalar Rng : Type} `{!Backend Scalar Rng}.
Variables X_train X_test y_train y_test : ndarray Scalar.
Variables n_in n_out : Z.

Abbreviation world := (@CustomFitness.world Scalar callable (ext Rng)).

(** The parameter count of [n_in -> 10 -> 10 -> n_out]. *)
Abbreviation total := (10 * n_in + 11 * n_out + 120)%Z.

Hypothesis X_train_columns : shape X_train !! 1 = Some n_in.
Hypothesis y_train_columns : shape y_train !! 1 = Some n_out.
Hypothesis n_in_nonneg : (0 <= n_in)%Z.
Hypothesis n_out_nonneg : (0 <= n_out)%Z.
Hypothesis total_fits : (total < 2 ^ 63)%Z.

Lemma build_model_for (w : world) :
  exists m g,
    build_model X_train y_train w
    = (Ok m, CustomFitness.World (CustomFitness.heap w)
               (Ext g (stdout (CustomFitness.ext w)))) /\
    map signature (layers m) = architecture_for n_in n_out /\
    optimizer m = None /\ loss m = None /\ metrics m = [].
Proof.
  unfold build_model, item. rewrite X_train_columns, y_train_columns.
  unfold mbind, M_bind, bind, lift, Notebook.add, Keras.add. cbn.
  destruct (glorot_uniform _ _) as [k1 g1]. cbn.
  destruct (glorot_uniform _ g1) as [k2 g2]. cbn.
  destruct (glorot_uniform _ g2) as [k3 g3]. cbn.
  eexists _, _. split; [reflexivity|]. done.
Qed.

Lemma architecture_for_fits (ls : list (layer Scalar)) :
  map signature ls = architecture_for n_in n_out ->
  fits 0 ls /\ parameter_count ls = total.
Proof.
  destruct ls as [|[u1 a1 [ks1 kd1] [bs1 bd1]]
                   [|[u2 a2 [ks2 kd2] [bs2 bd2]]
                      [|[u3 a3 [ks3 kd3] [bs3 bd3]] [|]]]]; try discriminate.
  intros [= -> -> -> -> -> -> -> -> -> -> -> ->].
  assert (parameter_count
            [Layer 10 "relu" (NdArray [n_in; 10%Z] kd1) (NdArray [10%Z] bd1);
             Layer 10 "relu" (NdArray [10%Z; 10%Z] kd2) (NdArray [10%Z] bd2);
             Layer n_out "softmax" (NdArray [10%Z; n_out] kd3)
               (NdArray [n_out] bd3)] = total) as Hcount.
  { unfold parameter_count, parameters, size_of. cbn [fold_right kernel bias shape].
    lia. }
  split; [|exact Hcount]. unfold fits. rewrite Hcount.
  split; [lia|]. split; [|lia].
  repeat constructor; cbn [kernel bias shape]; lia.
Qed.

Lemma fitness_function_for weights (w : world) :
  (total <= Z.of_nat (Datatypes.length weights))%Z ->
  exists m g,
    build_model X_train y_train w
    = (Ok m, CustomFitness.World (CustomFitness.heap w)
               (Ext g (stdout (CustomFitness.ext w)))) /\
    map signature (layers m) = architecture_for n_in n_out /\
    fitness_function X_train y_train weights w
    = (Ok (loss_value "categorical_crossentropy"
             (install weights 0 (layers m)) X_train y_train),
       CustomFitness.World (CustomFitness.heap w)
         (Ext g (stdout (CustomFitness.ext w)))).
Proof.
  intros Hlen. destruct (build_model_for w) as (m & g & Hb & Hsig & Ho & Hl & Hm).
  destruct (architecture_for_fits _ Hsig) as (Hfits & Hcount).
  exists m, g. split; [exact Hb|]. split; [exact Hsig|].
  unfold fitness_function. rewrite (bind_ok _ _ _ _ _ Hb).
  rewrite loop_installs by (assumption || lia). reflexivity.
Qed.




(** X12. The fitness of a vector depends on its first [total] entries
    and on nothing else: not on the entries after them, not on the
    random initial weights of the freshly built model, not on anything
    else in the interpreter state. *)
Theorem fitness_depends_on_parameters_only weights weights' (w w' : world) :
  (total <= Z.of_nat (Datatypes.length weights))%Z ->
  (total <= Z.of_nat (Datatypes.length weights'))%Z ->
  take (Z.to_nat total) weights = take (Z.to_nat total) weights' ->
  (fitness_function X_train y_train weights w).1
  = (fitness_function X_train y_train weights' w').1.
Proof.
  intros Hlen Hlen' Htake.
  destruct (fitness_function_for weights w Hlen) as (m & g & Hb & Hsig & ->).
  destruct (fitness_function_for weights' w' Hlen')
    as (m' & g' & Hb' & Hsig' & ->).
  destruct (architecture_for_fits _ Hsig) as ((_ & Hall & _) & Hcount).
  destruct (architecture_for_fits _ Hsig') as ((_ & Hall' & _) & Hcount').
  cbn [fst]. do 2 f_equal.
  rewrite <- (install_take weights (layers m) 0 (Z.to_nat total)) by (assumption || lia).
  rewrite <- (install_take weights' (layers m') 0 (Z.to_nat total))
    by (assumption || lia).
  rewrite Htake. apply install_signature. by rewrite Hsig, Hsig'.
Qed.



End Widths.

Section Cells.
Context {Scalar Rng : Type} `{!Backend Scalar Rng}.
Variables X_train y_train : ndarray Scalar.

Abbreviation world1 := (@CustomFitness.world Scalar callable (ext Rng)).

(** X15. Data without a second dimension (features that are not a
    table, labels that were not one-hot encoded) make [build_model]
    raise [IndexError], and with it [total_weights] and
    [fitness_function]; nothing is printed and no object changes. *)
Theorem one_dimensional_data_raises weights (w : world1) :
  shape X_train !! 1 = None \/ shape y_train !! 1 = None ->
  exists g,
    let failed :=
      CustomFitness.World (CustomFitness.heap w)
        (Ext g (stdout (CustomFitness.ext w))) in
    build_model X_train y_train w
    = (Raise (IndexError "tuple index out of range"), failed) /\
    total_weights X_train y_train w
    = (Raise (IndexError "tuple index out of range"), failed) /\
    fitness_function X_train y_train weights w
    = (Raise (IndexError "tuple index out of range"), failed).
Proof.
  intros Hdim.
  assert (exists g,
            build_model X_train y_train w
            = (Raise (IndexError "tuple index out of range"),
               CustomFitness.World (CustomFitness.heap w)
                 (Ext g (stdout (CustomFitness.ext w))))) as [g Hb].
  { destruct w as [h [g out]]. unfold build_model, item.
    destruct (shape X_train !! 1) as [n|] eqn:HX.
    - destruct Hdim as [|Hy]; [discriminate|]. rewrite Hy.
      unfold mbind, M_bind, bind, lift, Notebook.add, Keras.add. cbn.
      destruct (glorot_uniform _ _) as [k1 g1]. cbn.
      destruct (glorot_uniform _ g1) as [k2 g2]. cbn.
      by exists g2.
    - by exists g. }
  exists g. cbn zeta. split; [exact Hb|].
  unfold total_weights, fitness_function.
  by rewrite !(bind_raise _ _ _ _ _ Hb).
Qed.

Variable random_hill_climb simulated_annealing :
  ContinuousOpt -> forall (max_attempts max_iters : Z) (curve : bool)
    (random_state : Z), M world1 (list Scalar * Scalar * list Scalar).
Variable genetic_alg :
  ContinuousOpt -> forall (max_attempts max_iters : Z) (curve : bool)
    (random_state pop_size : Z) (mutation_prob : Q),
    M world1 (list Scalar * Scalar * list Scalar).

(** X16. When the three optimizers succeed, the optimizer cells leave
    in [results], under each algorithm's name, exactly the best state
    and the best fitness that algorithm returned, and in [histories]
    exactly its fitness curve; the optimizers run in the order RHC, SA,
    GA, each from the state the one before left. *)
Theorem optimize_records_runs p (w0 wa wb wc : world1)
    s1 f1 c1 s2 f2 c2 s3 f3 c3 :
  random_hill_climb p 100 1000 true 42 w0 = (Ok (s1, f1, c1), wa) ->
  simulated_annealing p 100 1000 true 42 wa = (Ok (s2, f2, c2), wb) ->
  genetic_alg p 100 1000 true 42 300 (1 # 5) wb = (Ok (s3, f3, c3), wc) ->
  let record s f : gmap string (entry Scalar) :=
    <["fitness" := EFitness f]> (<["state" := EState s]> ∅) in
  let curve c : gmap string (entry Scalar) := <["curve" := ECurve c]> ∅ in
  optimize random_hill_climb simulated_annealing genetic_alg p w0
  = (Ok (<["RHC" := record s1 f1]>
           (<["SA" := record s2 f2]> (<["GA" := record s3 f3]> ∅)),
         <["RHC" := curve c1]>
           (<["SA" := curve c2]> (<["GA" := curve c3]> ∅))),
     wc).
Proof.
  intros H1 H2 H3 record curve. unfold optimize.
  erewrite bind_ok; [|eapply (store_run _ _ _ _ _ _ _ _ ∅ ∅ H1); reflexivity].
  erewrite bind_ok;
    [|eapply (store_run _ _ _ _ _ _ _ _ ∅ ∅ H2); cbn [fst snd containers];
      by simplify_map_eq].
  erewrite (store_run _ _ _ _ _ _ _ _ ∅ ∅ H3);
    [|cbn [fst snd containers]; by simplify_map_eq..].
  cbn [fst snd containers]. do 2 f_equal.
  all: apply map_eq; intros k.
  all: destruct (decide (k = "RHC")) as [->|?]; [by simplify_map_eq|].
  all: destruct (decide (k = "SA")) as [->|?]; [by simplify_map_eq|].
  all: destruct (decide (k = "GA")) as [->|?]; by simplify_map_eq.
Qed.

End Cells.

Section Runs.
Import Demo.

Lemma network_fits (s : list Z) : fits 0 (network s).
Proof.
  split; [lia|]. split; [|vm_compute; reflexivity].
  repeat constructor; cbn; lia.
Qed.

Lemma reconstruction_keeps_shapes_witness :
  map signature (network ones) = map signature (network twos) /\
  well_formed (network ones).
Proof.
  destruct (reconstruction_keeps_shapes ones (network twos) 0 (network ones))
    as (_ & Hs & Hw); [reflexivity|].
  split; [exact Hs|exact Hw].
Defined.


Lemma flatten_then_load_witness :
  fitness_function_loop (flatten (network ones) ++ [7; 8]%Z) 0 (network ones)
  = Ok (network ones).
Proof.
  apply (flatten_then_load (network ones) [7; 8]%Z).
  - repeat constructor; cbn; lia.
  - vm_compute. reflexivity.
Defined.

Lemma short_vector_is_rejected_witness :
  fitness_function_loop short 0 (network ones)
  = Raise (ValueError "cannot reshape array").
Proof.
  apply (short_vector_is_rejected short (network ones) 0 (network_fits ones));
    vm_compute; first [discriminate | reflexivity].
Defined.





Lemma fitness_depends_on_parameters_only_witness :
  (fitness_function X_train y_train long nb_w0).1
  = (fitness_function X_train y_train ones
       (CustomFitness.World ∅ (Ext tt ["a line printed earlier"]))).1.
Proof.
  apply (fitness_depends_on_parameters_only X_train y_train 4 3 eq_refl eq_refl
           ltac:(lia) ltac:(lia) ltac:(lia));
    vm_compute; first [discriminate | reflexivity].
Defined.



Lemma one_dimensional_data_raises_witness :
  (fitness_function X_train y_labels ones nb_w0).1
  = Raise (IndexError "tuple index out of range").
Proof.
  destruct (one_dimensional_data_raises X_train y_labels ones nb_w0)
    as (g & _ & _ & ->); [right; reflexivity|].
  reflexivity.
Defined.

Lemma optimize_records_runs_witness :
  (optimize Demo.random_hill_climb Demo.simulated_annealing Demo.genetic_alg
     Demo.problem nb_w0).1
  = Ok (<["RHC" := <["fitness" := EFitness 0%Z]> (<["state" := EState ones]> ∅)]>
          (<["SA" := <["fitness" := EFitness 0%Z]> (<["state" := EState twos]> ∅)]>
             (<["GA" := <["fitness" := EFitness 0%Z]>
                          (<["state" := EState threes]> ∅)]> ∅)),
        <["RHC" := <["curve" := ECurve []]> ∅]>
          (<["SA" := <["curve" := ECurve []]> ∅]>
             (<["GA" := <["curve" := ECurve []]> ∅]> ∅))).
Proof.
  rewrite (optimize_records_runs Demo.random_hill_climb
             Demo.simulated_annealing Demo.genetic_alg Demo.problem
             nb_w0 nb_w0 nb_w0 nb_w0 ones 0%Z [] twos 0%Z [] threes 0%Z []);
    reflexivity.
Defined.

End Runs.
End NotebookMore.
